(** * galaxy-brain: ticket triage

    A shallow embedding of the ticket-triage core of the repository:

    - [packages/nlp_utils/src/models.py]      (module [models])
    - [packages/nlp_utils/src/extractors.py]  (module [extractors])
    - [agent.py]                              (module [agent])
    - [apps/batch_processor/src/test_demo.py] (module [test_demo])

    Conventions of the embedding.

    - A Python [str] is a [string]; [lower] and [upper] act on the ASCII
      letters and leave every other character alone, which is what
      [str.lower] and [str.upper] do on ASCII text.
    - A Python [int] is a [Z].
    - A Python [float] is a rational [Q] and a decimal literal denotes the
      rational it spells, so the arithmetic is exact.  Module [Binary64]
      evaluates the classifier's confidence expression a second time with
      binary64 rounding, on every pair of scores that can occur.
    - A call that may raise returns a [result]; [try ... except Exception]
      is [try_except].
    - The spaCy pipeline, the Hugging Face pipeline, the iteration order of
      a Python [set] and the LLM-backed agent are external: they are the
      fields of the records [extractors.Models] and [agent.TriageAgent],
      and every theorem quantifies over them. *)

From Stdlib Require Import List String Ascii ZArith QArith Lqa Lia Bool.
From Stdlib Require Import PrimFloat Uint63.
Import ListNotations.

Set Implicit Arguments.

(* ================================================================== *)
(** ** Python builtins used by the sources *)
(* ================================================================== *)

Module Py.

(** Exceptions the modelled code can raise or let through.  The last
    constructor stands for a [BaseException] that is not an [Exception]:
    asyncio.CancelledError, KeyboardInterrupt, SystemExit. *)
Inductive exception : Type :=
| ExternalError (msg : string)   (* raised by spaCy, the HF pipeline or the LLM client *)
| IndexError                     (* [xs[0]] on an empty list *)
| ValueError                     (* [max] of an empty sequence *)
| ValidationError (field : string) (* pydantic field validation *)
| BaseExceptionOnly (name : string).

(** [isinstance(e, Exception)] *)
Definition is_exception (e : exception) : bool :=
  match e with
  | BaseExceptionOnly _ => false
  | _ => true
  end.

Inductive result (A : Type) : Type :=
| Ok (a : A)
| Raise (e : exception).
Arguments Ok {A} a.
Arguments Raise {A} e.

Definition bind {A B : Type} (c : result A) (k : A -> result B) : result B :=
  match c with
  | Ok a => k a
  | Raise e => Raise e
  end.

(** [try: body except Exception as e: handler]: an exception that is not
    an [Exception] passes the clause and goes on to the caller. *)
Definition try_except {A : Type} (body : result A)
           (handler : exception -> result A) : result A :=
  match body with
  | Ok a => Ok a
  | Raise e => if is_exception e then handler e else Raise e
  end.

Definition is_ok {A : Type} (c : result A) : bool :=
  match c with Ok _ => true | Raise _ => false end.

(** *** str *)

Definition is_upper (c : ascii) : bool :=
  (65 <=? nat_of_ascii c)%nat && (nat_of_ascii c <=? 90)%nat.

Definition is_lower (c : ascii) : bool :=
  (97 <=? nat_of_ascii c)%nat && (nat_of_ascii c <=? 122)%nat.

Definition lower_char (c : ascii) : ascii :=
  if is_upper c then ascii_of_nat (nat_of_ascii c + 32) else c.

Definition upper_char (c : ascii) : ascii :=
  if is_lower c then ascii_of_nat (nat_of_ascii c - 32) else c.

Fixpoint map_str (f : ascii -> ascii) (s : string) : string :=
  match s with
  | EmptyString => EmptyString
  | String c s' => String (f c) (map_str f s')
  end.

(** [s.lower()], [s.upper()] *)
Definition lower (s : string) : string := map_str lower_char s.
Definition upper (s : string) : string := map_str upper_char s.

(** [s.replace(a, b)] for one-character [a] and [b]. *)
Definition replace_char (a b : ascii) (s : string) : string :=
  map_str (fun c => if Ascii.eqb c a then b else c) s.

(** [s.startswith(p)] *)
Fixpoint startswith (p s : string) : bool :=
  match p, s with
  | EmptyString, _ => true
  | String _ _, EmptyString => false
  | String a p', String b s' => Ascii.eqb a b && startswith p' s'
  end.

(** [p in s]: [p] occurs in [s] as a contiguous substring. *)
Fixpoint contains (p s : string) : bool :=
  startswith p s ||
  match s with
  | EmptyString => false
  | String _ s' => contains p s'
  end.

(** [s[:n]] for [n >= 0]. *)
Fixpoint slice_to (n : nat) (s : string) : string :=
  match n, s with
  | O, _ => EmptyString
  | S _, EmptyString => EmptyString
  | S n', String c s' => String c (slice_to n' s')
  end.

(** [len(s)] *)
Definition len (s : string) : nat := String.length s.

(** [x in xs] for a list of strings. *)
Definition mem (x : string) (xs : list string) : bool :=
  existsb (String.eqb x) xs.

(** *** numbers *)

(** [sum(xs)] over ints. *)
Definition sum (xs : list Z) : Z := fold_left Z.add xs 0%Z.

(** [min(a, b)]: the first argument unless the second is smaller. *)
Definition min (a b : Q) : Q :=
  match Qcompare b a with
  | Lt => b
  | _ => a
  end.

(** [float(n)] of an int, as it happens in [n * 0.1]. *)
Definition float (n : Z) : Q := inject_Z n.

(** [max(xs, key=key)]: the first element whose key is maximal;
    [ValueError] on an empty sequence. *)
Fixpoint max_from {A : Type} (key : A -> Q) (best : A) (xs : list A) : A :=
  match xs with
  | [] => best
  | x :: xs' =>
      match Qcompare (key best) (key x) with
      | Lt => max_from key x xs'
      | _ => max_from key best xs'
      end
  end.

Definition max_by {A : Type} (key : A -> Q) (xs : list A) : result A :=
  match xs with
  | [] => Raise ValueError
  | x :: xs' => Ok (max_from key x xs')
  end.

(** [xs[0]] *)
Definition first {A : Type} (xs : list A) : result A :=
  match xs with
  | [] => Raise IndexError
  | x :: _ => Ok x
  end.

(** *** str, continued *)

(** [c.isspace()] on ASCII: tab, line feed, vertical tab, form feed,
    carriage return, the four separators 28..31 and the space. *)
Definition is_space (c : ascii) : bool :=
  ((9 <=? nat_of_ascii c)%nat && (nat_of_ascii c <=? 13)%nat) ||
  ((28 <=? nat_of_ascii c)%nat && (nat_of_ascii c <=? 32)%nat).

(** [s.lstrip()] *)
Fixpoint lstrip (s : string) : string :=
  match s with
  | EmptyString => EmptyString
  | String c s' => if is_space c then lstrip s' else s
  end.

(** [s.rstrip()] *)
Fixpoint rstrip (s : string) : string :=
  match s with
  | EmptyString => EmptyString
  | String c s' =>
      match rstrip s' with
      | EmptyString => if is_space c then EmptyString else String c EmptyString
      | String _ _ as r => String c r
      end
  end.

(** [s.strip()] *)
Definition strip (s : string) : string := rstrip (lstrip s).

(** The line feed, and the blank-line separator. *)
Definition LF : string := String "010" EmptyString.
Definition LFLF : string := String "010" (String "010" EmptyString).

(** [s.split(sep)] for a non-empty [sep]: the pieces between the
    occurrences of [sep], found from the left and not overlapping.  The
    list returned begins with the piece being read; [skip] counts the
    characters of a separator just found that are still to be passed. *)
Fixpoint split_go (sep : string) (skip : nat) (s : string) : list string :=
  match s with
  | EmptyString => [EmptyString]
  | String c s' =>
      match skip with
      | S k => split_go sep k s'
      | O =>
          if startswith sep s then
            EmptyString :: split_go sep (String.length sep - 1) s'
          else
            match split_go sep 0 s' with
            | piece :: pieces => String c piece :: pieces
            | [] => [String c EmptyString]
            end
      end
  end.

Definition split (sep s : string) : list string := split_go sep 0 s.

(** *** dict with string keys and int values, in insertion order *)

Definition dict : Type := list (string * Z).

(** [d.get(k, default)] *)
Fixpoint dict_get (d : dict) (k : string) (default : Z) : Z :=
  match d with
  | [] => default
  | (k', v) :: d' => if String.eqb k' k then v else dict_get d' k default
  end.

(** [d[k] = v] *)
Fixpoint dict_set (d : dict) (k : string) (v : Z) : dict :=
  match d with
  | [] => [(k, v)]
  | (k', v') :: d' =>
      if String.eqb k' k then (k', v) :: d' else (k', v') :: dict_set d' k v
  end.

(** A dict with string keys and values of any type, in insertion order:
    [d[k] = v] keeps the place of a key already present, and [d.get(k)]. *)
Fixpoint assoc_set {V : Type} (d : list (string * V)) (k : string) (v : V)
  : list (string * V) :=
  match d with
  | [] => [(k, v)]
  | (k', v') :: d' =>
      if String.eqb k' k then (k', v) :: d' else (k', v') :: assoc_set d' k v
  end.

Fixpoint assoc_get {V : Type} (d : list (string * V)) (k : string) : option V :=
  match d with
  | [] => None
  | (k', v) :: d' => if String.eqb k' k then Some v else assoc_get d' k
  end.

(** [{key(x): value(x) for x in xs}] *)
Definition dict_comprehension {A V : Type} (key : A -> string) (value : A -> V)
           (xs : list A) : list (string * V) :=
  fold_left (fun d x => assoc_set d (key x) (value x)) xs [].

(** [await asyncio.gather(...)] of coroutines that have run to their
    outcomes: the results in the order of the arguments, or an exception
    one of them raised.  When several raise, which one reaches the caller
    depends on which coroutine finishes first; the first in the order of
    the arguments stands for it here. *)
Fixpoint gather {A : Type} (outcomes : list (result A)) : result (list A) :=
  match outcomes with
  | [] => Ok []
  | c :: rest =>
      match c with
      | Ok a =>
          match gather rest with
          | Ok l => Ok (a :: l)
          | Raise e => Raise e
          end
      | Raise e => Raise e
      end
  end.

(** [d.keys()], [d.values()] *)
Definition dict_keys (d : dict) : list string := map fst d.
Definition dict_values (d : dict) : list Z := map snd d.

End Py.

Import Py.

Declare Scope py_scope.
Delimit Scope py_scope with py.
Notation "x <- c ;; k" := (bind c (fun x => k))
  (at level 61, c at next level, right associativity) : py_scope.
Open Scope py_scope.
Open Scope string_scope.

(* ================================================================== *)
(** ** models.py *)
(* ================================================================== *)

Module models.

(** [class Entity(BaseModel)] *)
Record Entity : Type := mkEntity {
  ent_text : string;
  ent_label : string;
  ent_start : Z;
  ent_end : Z;
  ent_confidence : Q
}.

(** The object behind [class Ticket(BaseModel)].  [entities] is an
    [option] so that Python's [None] is a value the field can be given;
    [Ticket_init] below is the validating constructor. *)
Record Ticket : Type := mkTicket {
  customer_id : string;
  product : string;
  sentiment : string;
  urgency : string;
  entities : option (list Entity);
  summary : string;
  next_action : string;
  confidence_score : Q
}.

(** [Literal["positive", "neutral", "negative"]] *)
Definition sentiment_values : list string := ["positive"; "neutral"; "negative"].
(** [Literal["low", "medium", "high"]] *)
Definition urgency_values : list string := ["low"; "medium"; "high"].

(** [Field(..., ge=0.0, le=1.0)] *)
Definition in_unit_interval (x : Q) : bool :=
  Qle_bool 0 x && Qle_bool x 1.

(** [Entity(text=..., label=..., start=..., end=..., confidence=...)] *)
Definition Entity_init (e : Entity) : result Entity :=
  if in_unit_interval (ent_confidence e) then Ok e
  else Raise (ValidationError "confidence").

(** The constructor [Ticket] applied to keyword arguments: pydantic
    validates every field against its declaration, the nested entities
    included. *)
Definition Ticket_init (kw : Ticket) : result Ticket :=
  if negb (mem (sentiment kw) sentiment_values) then
    Raise (ValidationError "sentiment")
  else if negb (mem (urgency kw) urgency_values) then
    Raise (ValidationError "urgency")
  else match entities kw with
       | None => Raise (ValidationError "entities")
       | Some es =>
           if negb (forallb (fun e => is_ok (Entity_init e)) es) then
             Raise (ValidationError "entities")
           else if negb (in_unit_interval (confidence_score kw)) then
             Raise (ValidationError "confidence_score")
           else Ok kw
       end.

End models.

Import models.

(* ================================================================== *)
(** ** extractors.py *)
(* ================================================================== *)

Module extractors.

(** What the code reads of a spaCy [Doc]. *)
Record Span : Type := mkSpan {
  span_text : string;
  label_ : string;
  start_char : Z;
  end_char : Z
}.

Record Token : Type := mkToken {
  tok_text : string;
  pos_ : string
}.

Record Doc : Type := mkDoc {
  ents : list Span;
  tokens : list Token
}.

(** One entry of the Hugging Face pipeline's output. *)
Record LabelScore : Type := mkLabelScore {
  ls_label : string;
  ls_score : Q
}.

(** The external models behind [EntityExtractor] and [SentimentAnalyzer]:
    [self.nlp], [self.sentiment_pipeline], and the order in which
    [list(set(xs))] enumerates a set. *)
Record Models : Type := mkModels {
  nlp : string -> result Doc;
  sentiment_pipeline : string -> result (list (list LabelScore));
  list_of_set : list string -> list string
}.

(** [EntityExtractor.extract_entities] *)
Fixpoint entities_of_spans (spans : list Span) : result (list Entity) :=
  match spans with
  | [] => Ok []
  | ent :: rest =>
      entity <- Entity_init (mkEntity (span_text ent) (label_ ent)
                                      (start_char ent) (end_char ent) 1.0) ;;
      entities <- entities_of_spans rest ;;
      Ok (entity :: entities)
  end.

Definition extract_entities (m : Models) (text : string) : result (list Entity) :=
  doc <- nlp m text ;;
  entities_of_spans (ents doc).

(** [EntityExtractor.extract_product_mentions] *)
Definition extract_product_mentions (m : Models) (text : string)
  : result (list string) :=
  doc <- nlp m text ;;
  let from_ents :=
    map span_text
        (filter (fun ent => mem (label_ ent) ["PRODUCT"; "ORG"; "PERSON"])
                (ents doc)) in
  let from_tokens :=
    map tok_text
        (filter (fun token =>
                   String.eqb (pos_ token) "NOUN" &&
                   mem (lower (tok_text token))
                       ["widget"; "app"; "software"; "service"])
                (tokens doc)) in
  Ok (list_of_set m (from_ents ++ from_tokens)).

(** The dict returned by [SentimentAnalyzer.analyze_sentiment]. *)
Record SentimentResult : Type := mkSentimentResult {
  sr_sentiment : string;
  sr_confidence : Q;
  sr_scores : list (string * Q)
}.

(** [sentiment_map.get(label, "neutral")] *)
Definition sentiment_map_get (label : string) : string :=
  if String.eqb label "POSITIVE" then "positive"
  else if String.eqb label "NEGATIVE" then "negative"
  else "neutral".

(** [SentimentAnalyzer.analyze_sentiment] *)
Definition analyze_sentiment (m : Models) (text : string)
  : result SentimentResult :=
  out <- sentiment_pipeline m text ;;
  results <- first out ;;
  max_score <- max_by ls_score results ;;
  Ok (mkSentimentResult
        (sentiment_map_get (ls_label max_score))
        (ls_score max_score)
        (dict_comprehension ls_label ls_score results)).

(** *** UrgencyClassifier *)

Definition high_urgency_keywords : list string :=
  [ "urgent"; "emergency"; "asap"; "immediately"; "critical";
    "broken"; "down"; "not working"; "error"; "bug"; "crash";
    "angry"; "frustrated"; "disappointed"; "unacceptable" ].

Definition medium_urgency_keywords : list string :=
  [ "soon"; "issue"; "problem"; "question"; "help";
    "support"; "assistance"; "confused"; "unclear" ].

Record KeywordMatches : Type := mkKeywordMatches {
  km_high : Z;
  km_medium : Z
}.

(** The dict returned by [classify_urgency]. *)
Record UrgencyResult : Type := mkUrgencyResult {
  ur_urgency : string;
  ur_confidence : Q;
  ur_keyword_matches : KeywordMatches
}.

(** [sum(1 for keyword in keywords if keyword in text_lower)] *)
Definition keyword_score (keywords : list string) (text_lower : string) : Z :=
  sum (map (fun _ => 1%Z)
           (filter (fun keyword => contains keyword text_lower) keywords)).

(** The score after the sentiment adjustment. *)
Definition adjust_for_sentiment (sentiment : string) (high_score : Z) : Z :=
  if String.eqb sentiment "negative" then (high_score + 2)%Z
  else if String.eqb sentiment "positive" then (high_score - 1)%Z
  else high_score.

(** [UrgencyClassifier.classify_urgency] *)
Definition classify_urgency (text sentiment : string) : UrgencyResult :=
  let text_lower := lower text in
  let high_score := keyword_score high_urgency_keywords text_lower in
  let medium_score := keyword_score medium_urgency_keywords text_lower in
  let high_score := adjust_for_sentiment sentiment high_score in
  let '(urgency, confidence) :=
    if (3 <=? high_score)%Z then
      ("high", min 0.9 (0.5 + float high_score * 0.1))
    else if (1 <=? high_score)%Z || (2 <=? medium_score)%Z then
      ("medium", min 0.8 (0.4 + float (high_score + medium_score) * 0.1))
    else
      ("low", 0.6) in
  mkUrgencyResult urgency confidence (mkKeywordMatches high_score medium_score).

End extractors.

Import extractors.

(* ================================================================== *)
(** ** agent.py *)
(* ================================================================== *)

Module agent.

(** What the prompt given to [self.agent.run] is built from. *)
Record Prompt : Type := mkPrompt {
  p_email_text : string;
  p_entities : list Entity;
  p_product_mentions : list string;
  p_sentiment : string;
  p_sentiment_confidence : Q;
  p_urgency : string;
  p_urgency_confidence : Q
}.

(** [class TriageAgent]: the ML components and the LLM-backed agent.
    [agent_run] is [self.agent.run]; [result.data] is the [Ticket] it
    answers with, or it raises. *)
Record TriageAgent : Type := mkTriageAgent {
  ml : Models;
  agent_run : Prompt -> result Ticket
}.

(** [ticket_data["confidence_score"] = score] on [result.data.dict()]. *)
Definition set_confidence_score (ticket_data : Ticket) (score : Q) : Ticket :=
  mkTicket (customer_id ticket_data) (product ticket_data)
           (sentiment ticket_data) (urgency ticket_data)
           (entities ticket_data) (summary ticket_data)
           (next_action ticket_data) score.

(** The loop of [_create_fallback_ticket] that picks the customer id. *)
Fixpoint fallback_customer_id (entities : list Entity) : string :=
  match entities with
  | [] => "UNKNOWN"
  | entity :: rest =>
      if mem (ent_label entity) ["PERSON"; "ORG"] then
        "C_" ++ upper (replace_char " " "_" (ent_text entity))
      else fallback_customer_id rest
  end.

(** [TriageAgent._create_fallback_ticket] *)
Definition _create_fallback_ticket
           (email_text : string) (entities : list Entity)
           (product_mentions : list string)
           (sentiment_result : SentimentResult)
           (urgency_result : UrgencyResult) : result Ticket :=
  let customer_id := fallback_customer_id entities in
  let product :=
    match product_mentions with
    | p :: _ => p
    | [] => "General Support"
    end in
  let summary :=
    if (100 <? len email_text)%nat then slice_to 100 email_text ++ "..."
    else email_text in
  let next_action :=
    if String.eqb (ur_urgency urgency_result) "high" then "escalate_to_tier_2"
    else "assign_to_support" in
  Ticket_init
    (mkTicket customer_id product
              (sr_sentiment sentiment_result)
              (ur_urgency urgency_result)
              (Some entities)
              summary next_action
              ((sr_confidence sentiment_result + ur_confidence urgency_result) / 2)).

(** The body of the [try] block of [process_email]. *)
Definition llm_synthesis (self : TriageAgent)
           (email_text : string) (entities : list Entity)
           (product_mentions : list string)
           (sentiment_result : SentimentResult)
           (urgency_result : UrgencyResult) : result Ticket :=
  data <- agent_run self
            (mkPrompt email_text entities product_mentions
                      (sr_sentiment sentiment_result)
                      (sr_confidence sentiment_result)
                      (ur_urgency urgency_result)
                      (ur_confidence urgency_result)) ;;
  let ticket_data :=
    set_confidence_score data
      ((sr_confidence sentiment_result + ur_confidence urgency_result) / 2) in
  Ticket_init ticket_data.

(** [TriageAgent.process_email] *)
Definition process_email (self : TriageAgent) (email_text : string)
  : result Ticket :=
  entities <- extract_entities (ml self) email_text ;;
  product_mentions <- extract_product_mentions (ml self) email_text ;;
  sentiment_result <- analyze_sentiment (ml self) email_text ;;
  let urgency_result :=
    classify_urgency email_text (sr_sentiment sentiment_result) in
  try_except
    (llm_synthesis self email_text entities product_mentions
                   sentiment_result urgency_result)
    (fun _ =>
       _create_fallback_ticket email_text entities product_mentions
                               sentiment_result urgency_result).

(** [TriageAgent.process_email_sync] *)
Definition process_email_sync (self : TriageAgent) (email_text : string)
  : result Ticket :=
  process_email self email_text.

End agent.

Import agent.

(* ================================================================== *)
(** ** apps/batch_processor/src/test_demo.py *)
(* ================================================================== *)

Module test_demo.

Fixpoint demo_customer_id (entities : list Entity) : string :=
  match entities with
  | [] => "UNKNOWN"
  | entity :: rest =>
      if mem (ent_label entity) ["PERSON"; "ORG"] then
        "C_" ++ upper (replace_char " " "_" (ent_text entity))
      else demo_customer_id rest
  end.

(** [create_demo_ticket]: the ML-only path, no LLM. *)
Definition create_demo_ticket (m : Models) (email_text : string)
  : result Ticket :=
  entities <- extract_entities m email_text ;;
  product_mentions <- extract_product_mentions m email_text ;;
  sentiment_result <- analyze_sentiment m email_text ;;
  let urgency_result :=
    classify_urgency email_text (sr_sentiment sentiment_result) in
  let customer_id := demo_customer_id entities in
  let product :=
    match product_mentions with
    | p :: _ => p
    | [] => "General Support"
    end in
  let summary :=
    if (100 <? len email_text)%nat then slice_to 100 email_text ++ "..."
    else email_text in
  let next_action :=
    if String.eqb (ur_urgency urgency_result) "high" then
      "escalate_to_tier_2"
    else if String.eqb (sr_sentiment sentiment_result) "negative" then
      "assign_to_senior_support"
    else if contains "billing" (lower email_text)
            || contains "payment" (lower email_text) then
      "assign_to_billing"
    else "assign_to_support" in
  Ticket_init
    (mkTicket customer_id product
              (sr_sentiment sentiment_result)
              (ur_urgency urgency_result)
              (Some entities)
              summary next_action
              ((sr_confidence sentiment_result + ur_confidence urgency_result) / 2)).

End test_demo.

Import test_demo.

(* ================================================================== *)
(** ** apps/batch_processor/src/processor.py *)
(* ================================================================== *)

Module processor.

(** [process_single], the coroutine of [process_email_batch]: the ticket,
    or [None] when [process_email] raised an [Exception]. *)
Definition process_single (self_agent : TriageAgent) (email_text : string)
  : result (option Ticket) :=
  try_except
    (ticket <- process_email self_agent email_text ;; Ok (Some ticket))
    (fun _ => Ok None).

(** [BatchProcessor.process_email_batch].  The collaborators hold no
    state that one call could change for another, and the semaphore bounds
    how many calls are in flight and has no part in the result. *)
Definition process_email_batch (self_agent : TriageAgent) (emails : list string)
  : result (list Ticket) :=
  tickets <- gather (map (process_single self_agent) emails) ;;
  Ok (flat_map (fun ticket =>
                  match ticket with
                  | Some t => [t]
                  | None => []
                  end) tickets).

(** [BatchProcessor.load_emails_from_file]; [file] is the text of the file,
    [None] when the path does not exist. *)
Definition load_emails_from_file (file : option string) : list string :=
  match file with
  | None => []
  | Some content =>
      let emails := split LFLF content in
      let emails :=
        if (List.length emails =? 1)%nat then split LF content else emails in
      map strip (filter (fun email => negb (String.eqb (strip email) "")) emails)
  end.

(** What [BatchProcessor.print_summary] prints. *)
Record Summary : Type := mkSummary {
  table_rows : list Ticket;
  more_tickets : option nat;
  total_tickets : nat;
  urgency_counts : dict;
  sentiment_counts : dict;
  avg_confidence : Q
}.

(** The counting loop of [print_summary]. *)
Fixpoint count_tickets (tickets : list Ticket) (urgency_counts sentiment_counts : dict)
  : dict * dict :=
  match tickets with
  | [] => (urgency_counts, sentiment_counts)
  | ticket :: rest =>
      count_tickets rest
        (dict_set urgency_counts (urgency ticket)
                  (dict_get urgency_counts (urgency ticket) 0 + 1))
        (dict_set sentiment_counts (sentiment ticket)
                  (dict_get sentiment_counts (sentiment ticket) 0 + 1))
  end.

(** [sum(t.confidence_score for t in tickets)] *)
Definition sum_confidence (tickets : list Ticket) : Q :=
  fold_left Qplus (map confidence_score tickets) 0.

(** [BatchProcessor.print_summary]: [None] when there is nothing to
    summarise and only the notice is printed. *)
Definition print_summary (tickets : list Ticket) : option Summary :=
  match tickets with
  | [] => None
  | _ :: _ =>
      let '(urgency_counts, sentiment_counts) := count_tickets tickets [] [] in
      Some (mkSummary
              (firstn 10 tickets)
              (if (10 <? List.length tickets)%nat
               then Some (List.length tickets - 10)%nat else None)
              (List.length tickets)
              urgency_counts sentiment_counts
              (sum_confidence tickets / float (Z.of_nat (List.length tickets))))
  end.

End processor.

Import processor.

(* ================================================================== *)
(** ** apps/api_service/src/api_server.py *)
(* ================================================================== *)

Module api_server.

(** What the handler of [POST /triage] answers: the ticket, or the
    [HTTPException] it raises for the framework to send, with its status
    code; [cause] is the exception whose text the detail message quotes. *)
Inductive Response : Type :=
| Returned (ticket : Ticket)
| HTTPException (status_code : Z) (cause : exception).

(** [triage_email]; an exception that is not an [Exception] passes the
    handler. *)
Definition triage_email (triage_agent : TriageAgent) (email_text : string)
  : result Response :=
  try_except
    (ticket <- process_email triage_agent email_text ;; Ok (Returned ticket))
    (fun e => Ok (HTTPException 500 e)).

End api_server.

Import api_server.

(* ================================================================== *)
(** ** ml_pipelines/eval_sentiment_model/eval_script.py *)
(* ================================================================== *)

Module eval_script.

(** One entry of [detailed_results]. *)
Record DetailedResult : Type := mkDetailedResult {
  dr_text : string;
  dr_true_label : string;
  dr_predicted_label : string;
  dr_confidence : Q;
  dr_correct : bool
}.

(** [SentimentEvaluator.evaluate_model]: predictions, true labels and
    detailed results, each in the order of the test data. *)
Fixpoint evaluate_model (m : Models) (test_data : list (string * string))
  : result (list string * list string * list DetailedResult) :=
  match test_data with
  | [] => Ok ([], [], [])
  | (text, true_label) :: rest =>
      r <- analyze_sentiment m text ;;
      let predicted_label := sr_sentiment r in
      let confidence := sr_confidence r in
      out <- evaluate_model m rest ;;
      let '(predictions, true_labels, detailed_results) := out in
      Ok (predicted_label :: predictions,
          true_label :: true_labels,
          mkDetailedResult text true_label predicted_label confidence
                           (String.eqb predicted_label true_label)
          :: detailed_results)
  end.

(** [sum(1 for r in detailed_results if r['correct'])] of [save_results]. *)
Definition correct_predictions (detailed_results : list DetailedResult) : Z :=
  sum (map (fun _ => 1%Z) (filter dr_correct detailed_results)).

End eval_script.

Import eval_script.

(* ================================================================== *)
(** ** Definitions that follow the specification's wording *)
(* ================================================================== *)

Module Spec.

(** The number of positions of [s] at which [p] occurs, overlapping
    occurrences included. *)
Fixpoint occurrences (p s : string) : nat :=
  (if startswith p s then 1 else 0) +
  match s with
  | EmptyString => 0
  | String _ s' => occurrences p s'
  end.

(** "Count case-insensitive substring occurrences of each set's terms in
    the input text": every occurrence of every term counts. *)
Definition occurrence_score (keywords : list string) (text : string) : Z :=
  Z.of_nat (list_sum (map (fun keyword => occurrences keyword (lower text))
                          keywords)).

(** The ordered decision policy on the adjusted scores, each rule with
    the negation of the rules before it. *)
Inductive decision (high_score medium_score : Z) : string -> Q -> Prop :=
| decide_high :
    (3 <= high_score)%Z ->
    decision high_score medium_score
             "high" (min 0.9 (0.5 + float high_score * 0.1))
| decide_medium :
    ~ (3 <= high_score)%Z ->
    (1 <= high_score)%Z \/ (2 <= medium_score)%Z ->
    decision high_score medium_score
             "medium" (min 0.8 (0.4 + float (high_score + medium_score) * 0.1))
| decide_low :
    ~ (3 <= high_score)%Z ->
    ~ ((1 <= high_score)%Z \/ (2 <= medium_score)%Z) ->
    decision high_score medium_score "low" 0.6.

(** The sentiment adjustment: +2 for negative, -1 for positive, nothing
    otherwise. *)
Inductive adjusted (high_score : Z) : string -> Z -> Prop :=
| adjust_negative : adjusted high_score "negative" (high_score + 2)
| adjust_positive : adjusted high_score "positive" (high_score - 1)
| adjust_other sentiment :
    sentiment <> "negative" -> sentiment <> "positive" ->
    adjusted high_score sentiment high_score.

(** The invariant of an [Entity] (section 3 of the specification). *)
Definition entity_invariants (e : Entity) : Prop :=
  (0 <= ent_confidence e /\ ent_confidence e <= 1)%Q.

(** The invariants of a [Ticket] (section 3 of the specification). *)
Definition ticket_invariants (t : Ticket) : Prop :=
  In (sentiment t) ["positive"; "neutral"; "negative"] /\
  In (urgency t) ["low"; "medium"; "high"] /\
  (0 <= confidence_score t /\ confidence_score t <= 1)%Q /\
  exists es : list Entity,
    entities t = Some es /\ Forall entity_invariants es.

(** The summary rule: the text itself up to 100 characters, else its
    first 100 characters followed by an ellipsis. *)
Definition summary_rule (text summary : string) : Prop :=
  ((String.length text <= 100)%nat /\ summary = text) \/
  ((100 < String.length text)%nat /\
   exists head rest,
     text = head ++ rest /\ String.length head = 100%nat /\
     summary = head ++ "...").

(** The arithmetic mean of the two classifier confidences. *)
Definition fused_confidence (sentiment_confidence urgency_confidence : Q) : Q :=
  (sentiment_confidence + urgency_confidence) / 2.

(** The order of the urgency labels: low below medium below high. *)
Definition urgency_rank (urgency : string) : nat :=
  if String.eqb urgency "high" then 2
  else if String.eqb urgency "medium" then 1
  else 0.

(** The characters of a string, as a list. *)
Fixpoint chars (s : string) : list ascii :=
  match s with
  | EmptyString => []
  | String c s' => c :: chars s'
  end.

(** A string with no white space at either end. *)
Definition stripped (s : string) : Prop :=
  match chars s with
  | [] => True
  | c :: _ => is_space c = false /\ is_space (last (chars s) c) = false
  end.

End Spec.

Import Spec.

(* ================================================================== *)
(** ** The confidence expression in IEEE binary64 *)
(* ================================================================== *)

(** The embedding above computes confidences in [Q].  This module evaluates
    the confidence expression of [classify_urgency] again, on the adjusted
    scores, with the binary64 operations Python's [float] has, so that the
    bounds can be checked with rounding on every pair of scores the
    classifier can reach. *)
Module Binary64.

#[local] Set Warnings "-inexact-float".

(** [float(n)] *)
Definition of_int (n : Z) : PrimFloat.float :=
  match n with
  | Z0 => PrimFloat.zero
  | Zpos _ => PrimFloat.of_uint63 (Uint63.of_Z n)
  | Zneg _ => PrimFloat.opp (PrimFloat.of_uint63 (Uint63.of_Z (- n)))
  end.

(** [min(a, b)] *)
Definition min (a b : PrimFloat.float) : PrimFloat.float :=
  if PrimFloat.ltb b a then b else a.

Definition confidence (high_score medium_score : Z) : PrimFloat.float :=
  if (3 <=? high_score)%Z then
    min 0.9%float (0.5 + of_int high_score * 0.1)%float
  else if (1 <=? high_score)%Z || (2 <=? medium_score)%Z then
    min 0.8%float (0.4 + of_int (high_score + medium_score) * 0.1)%float
  else 0.6%float.

(** The bounds of the three rules, as a test on one pair of scores. *)
Definition within_bounds (high_score medium_score : Z) : bool :=
  let c := confidence high_score medium_score in
  PrimFloat.leb 0%float c && PrimFloat.leb c 0.9%float &&
  (if (3 <=? high_score)%Z then PrimFloat.leb c 0.9%float
   else if (1 <=? high_score)%Z || (2 <=? medium_score)%Z then
     PrimFloat.leb c 0.8%float
   else PrimFloat.eqb c 0.6%float).

(** The integers [lo], [lo + 1], ..., [lo + n - 1]. *)
Definition Z_range (lo : Z) (n : nat) : list Z :=
  map (fun k => (lo + Z.of_nat k)%Z) (seq 0 n).

(** Adjusted high scores run from -1 to 17, medium scores from 0 to 9. *)
Definition all_within_bounds : bool :=
  forallb (fun h => forallb (fun m => within_bounds h m) (Z_range 0 10))
          (Z_range (-1) 19).

End Binary64.

(* ================================================================== *)
(** ** Sample collaborators and inputs *)
(* ================================================================== *)

Module Samples.

Definition short_email : string :=
  "My Widget-X is broken, please help me soon. Jane Doe".

Definition long_email : string :=
  "Hello, I have been waiting for three weeks for a reply about my order and the app keeps showing an error. Jane".

Definition doc_of (text : string) : Doc :=
  mkDoc [ mkSpan "Widget-X" "PRODUCT" 3 11; mkSpan "Jane Doe" "PERSON" 44 52 ]
        [ mkToken "Widget-X" "PROPN"; mkToken "help" "VERB" ].

(** Working ML models; the sentiment model answers negative at 0.98. *)
Definition models_up : Models :=
  mkModels (fun text => Ok (doc_of text))
           (fun _ => Ok [[ mkLabelScore "NEGATIVE" 0.98;
                           mkLabelScore "POSITIVE" 0.02 ]])
           (fun xs => nodup string_dec xs).

(** The sentiment pipeline answers the same label twice. *)
Definition models_repeated_label : Models :=
  mkModels (fun text => Ok (doc_of text))
           (fun _ => Ok [[ mkLabelScore "POSITIVE" 0.6;
                           mkLabelScore "POSITIVE" 0.4 ]])
           (fun xs => nodup string_dec xs).

(** The sentiment model cannot be reached. *)
Definition models_sentiment_down : Models :=
  mkModels (fun text => Ok (doc_of text))
           (fun _ => Raise (ExternalError "sentiment model unavailable"))
           (fun xs => nodup string_dec xs).

(** A ticket as the LLM may answer it, with a confidence of its own. *)
Definition llm_ticket : Ticket :=
  mkTicket "C_JANE_DOE" "Widget-X" "negative" "high"
           (Some [ mkEntity "Jane Doe" "PERSON" 44 52 1.0 ])
           "Widget-X is broken; customer asks for help."
           "technical_support" 0.99.

Definition agent_llm_up : TriageAgent :=
  mkTriageAgent models_up (fun _ => Ok llm_ticket).

Definition agent_llm_down : TriageAgent :=
  mkTriageAgent models_up (fun _ => Raise (ExternalError "connection timed out")).

(** The awaited LLM call is cancelled. *)
Definition agent_llm_cancelled : TriageAgent :=
  mkTriageAgent models_up (fun _ => Raise (BaseExceptionOnly "CancelledError")).

Definition agent_sentiment_down : TriageAgent :=
  mkTriageAgent models_sentiment_down (fun _ => Ok llm_ticket).

(** The LLM's answer once [process_email] has overwritten its score:
    0.98 is the sentiment confidence on [short_email]. *)
Definition fused_llm_ticket : Ticket :=
  set_confidence_score llm_ticket
    (fused_confidence 0.98
       (ur_confidence (classify_urgency short_email "negative"))).

Definition neutral_result : SentimentResult :=
  mkSentimentResult "neutral" 0.7 [("POSITIVE", 0.3); ("NEGATIVE", 0.7)].

Definition low_result : UrgencyResult :=
  mkUrgencyResult "low" 0.6 (mkKeywordMatches 0 0).

End Samples.

Import Samples.

Example classify_urgent_down :
  let r := classify_urgency "URGENT: system is down, please help immediately!!" "negative" in
  ur_urgency r = "high" /\ ur_confidence r = 0.9 /\ km_high (ur_keyword_matches r) = 5%Z.
Proof. vm_compute. auto. Qed.

(* ================================================================== *)
(** ** Strings: substring search and case folding *)
(* ================================================================== *)

Section StringFacts.

Lemma startswith_iff (p s : string) :
  startswith p s = true <-> exists post, s = p ++ post.
Proof.
  revert s; induction p as [|a p IH]; intros s; simpl.
  - split; [intros _; now exists s | reflexivity].
  - destruct s as [|b s].
    + split; [discriminate | intros [post H]; discriminate].
    + rewrite andb_true_iff, IH. split.
      * intros [Hab [post ->]]. apply Ascii.eqb_eq in Hab. subst b.
        now exists post.
      * intros [post H]. injection H as -> ->. split.
        -- apply Ascii.eqb_refl.
        -- now exists post.
Qed.

Lemma contains_unfold (p s : string) :
  contains p s =
  startswith p s ||
  match s with EmptyString => false | String _ s' => contains p s' end.
Proof. destruct s; reflexivity. Qed.

Lemma occurrences_unfold (p s : string) :
  occurrences p s =
  ((if startswith p s then 1 else 0) +
   match s with EmptyString => 0 | String _ s' => occurrences p s' end)%nat.
Proof. destruct s; reflexivity. Qed.

(** Python's [p in s], declaratively. *)
Lemma contains_iff (p s : string) :
  contains p s = true <-> exists pre post, s = pre ++ p ++ post.
Proof.
  induction s as [|c s IH]; rewrite contains_unfold, orb_true_iff, startswith_iff.
  - split.
    + intros [[post H] | H]; [|discriminate]. now exists "", post.
    + intros [pre [post H]]. left. destruct pre; [|discriminate].
      now exists post.
  - rewrite IH. split.
    + intros [[post H] | [pre [post H]]].
      * now exists "", post.
      * exists (String c pre), post. simpl. now rewrite H.
    + intros [[|c' pre] [post H]].
      * left. now exists post.
      * right. injection H as _ H. now exists pre, post.
Qed.

(** A term is found exactly when it occurs at least once. *)
Lemma contains_occurrences (p s : string) :
  contains p s = (0 <? occurrences p s)%nat.
Proof.
  induction s as [|c s IH]; rewrite contains_unfold, occurrences_unfold.
  - now destruct (startswith p "").
  - rewrite IH. destruct (startswith p (String c s)); simpl; [reflexivity|].
    reflexivity.
Qed.

Lemma lower_char_upper_char (c : ascii) : lower_char (upper_char c) = lower_char c.
Proof. destruct c as [[] [] [] [] [] [] [] []]; reflexivity. Qed.

Lemma lower_char_idem (c : ascii) : lower_char (lower_char c) = lower_char c.
Proof. destruct c as [[] [] [] [] [] [] [] []]; reflexivity. Qed.

Lemma lower_upper (s : string) : lower (upper s) = lower s.
Proof.
  induction s as [|c s IH]; simpl; [reflexivity|].
  unfold lower, upper in *. simpl. now rewrite lower_char_upper_char, IH.
Qed.

Lemma lower_idem (s : string) : lower (lower s) = lower s.
Proof.
  induction s as [|c s IH]; simpl; [reflexivity|].
  unfold lower in *. simpl. now rewrite lower_char_idem, IH.
Qed.

Lemma slice_to_all (n : nat) (s : string) :
  (String.length s <= n)%nat -> slice_to n s = s.
Proof.
  revert s; induction n as [|n IH]; intros [|c s] H; simpl in *;
    try reflexivity; try lia.
  rewrite IH; [reflexivity | lia].
Qed.

Lemma slice_to_split (n : nat) (s : string) :
  (n <= String.length s)%nat ->
  exists rest, s = slice_to n s ++ rest /\ String.length (slice_to n s) = n.
Proof.
  revert s; induction n as [|n IH]; intros s H.
  - exists s. split; reflexivity.
  - destruct s as [|c s]; simpl in *; [lia|].
    destruct (IH s) as [rest [Hs Hl]]; [lia|].
    exists rest. split; [now rewrite <- Hs | now rewrite Hl].
Qed.

End StringFacts.

(* ================================================================== *)
(** ** Numbers *)
(* ================================================================== *)

Section NumberFacts.

Lemma sum_ones_from {A : Type} (l : list A) (acc : Z) :
  fold_left Z.add (map (fun _ => 1%Z) l) acc = (acc + Z.of_nat (List.length l))%Z.
Proof.
  revert acc; induction l as [|x l IH]; intros acc; simpl fold_left.
  - simpl. lia.
  - rewrite IH. simpl List.length. lia.
Qed.

Lemma sum_ones {A : Type} (l : list A) :
  sum (map (fun _ => 1%Z) l) = Z.of_nat (List.length l).
Proof. unfold sum. now rewrite sum_ones_from. Qed.

Lemma min_le_l (a b : Q) : (min a b <= a)%Q.
Proof.
  unfold min. destruct (Qcompare b a) eqn:E; try apply Qle_refl.
  apply Qlt_le_weak. now apply Qlt_alt.
Qed.

Lemma min_le_r (a b : Q) : (min a b <= b)%Q.
Proof.
  unfold min. destruct (Qcompare b a) eqn:E.
  - apply Qeq_alt in E. rewrite E. apply Qle_refl.
  - apply Qle_refl.
  - apply Qgt_alt in E. now apply Qlt_le_weak.
Qed.

Lemma min_glb (a b c : Q) : (c <= a)%Q -> (c <= b)%Q -> (c <= min a b)%Q.
Proof. intros Ha Hb. unfold min. now destruct (Qcompare b a). Qed.

Lemma float_ge (k n : Z) : (k <= n)%Z -> (k # 1 <= float n)%Q.
Proof.
  intros H. unfold float. change (k # 1) with (inject_Z k).
  now rewrite <- Zle_Qle.
Qed.

Lemma in_unit_interval_iff (x : Q) :
  in_unit_interval x = true <-> (0 <= x /\ x <= 1)%Q.
Proof.
  unfold in_unit_interval. now rewrite andb_true_iff, !Qle_bool_iff.
Qed.

End NumberFacts.

(* ================================================================== *)
(** ** UrgencyClassifier *)
(* ================================================================== *)

Section UrgencyClassifier.

Lemma keyword_score_length (keywords : list string) (text_lower : string) :
  keyword_score keywords text_lower =
  Z.of_nat (List.length (filter (fun keyword => contains keyword text_lower)
                                keywords)).
Proof. unfold keyword_score. apply sum_ones. Qed.

Lemma keyword_score_bounds (keywords : list string) (text_lower : string) :
  (0 <= keyword_score keywords text_lower <= Z.of_nat (List.length keywords))%Z.
Proof.
  rewrite keyword_score_length. split; [lia|].
  apply Nat2Z.inj_le, filter_length_le.
Qed.

Lemma present_le_occurrences (keywords : list string) (s : string) :
  (List.length (filter (fun keyword => contains keyword s) keywords)
   <= list_sum (map (fun keyword => occurrences keyword s) keywords))%nat.
Proof.
  induction keywords as [|k keywords IH]; simpl; [lia|].
  rewrite contains_occurrences.
  destruct (0 <? occurrences k s)%nat eqn:E; simpl.
  - apply Nat.ltb_lt in E. lia.
  - lia.
Qed.

Lemma adjust_for_sentiment_adjusted (sentiment : string) (high_score : Z) :
  adjusted high_score sentiment (adjust_for_sentiment sentiment high_score).
Proof.
  unfold adjust_for_sentiment.
  destruct (String.eqb_spec sentiment "negative") as [-> | Hn];
    [constructor|].
  destruct (String.eqb_spec sentiment "positive") as [-> | Hp];
    [constructor|].
  now constructor.
Qed.

Lemma adjust_for_sentiment_lower (sentiment : string) (high_score : Z) :
  (high_score - 1 <= adjust_for_sentiment sentiment high_score)%Z.
Proof.
  unfold adjust_for_sentiment.
  destruct (String.eqb sentiment "negative");
    [|destruct (String.eqb sentiment "positive")]; lia.
Qed.

(** How [classify_urgency] decides, in terms of the adjusted scores. *)
Lemma classify_urgency_cases (text sentiment : string) :
  let high := adjust_for_sentiment sentiment
                (keyword_score high_urgency_keywords (lower text)) in
  let medium := keyword_score medium_urgency_keywords (lower text) in
  let r := classify_urgency text sentiment in
  ur_keyword_matches r = mkKeywordMatches high medium /\
  ( ((3 <= high)%Z /\ ur_urgency r = "high" /\
     ur_confidence r = min 0.9 (0.5 + float high * 0.1))
    \/ ((high < 3)%Z /\ ((1 <= high)%Z \/ (2 <= medium)%Z) /\
        ur_urgency r = "medium" /\
        ur_confidence r = min 0.8 (0.4 + float (high + medium) * 0.1))
    \/ ((high < 1)%Z /\ (medium < 2)%Z /\
        ur_urgency r = "low" /\ ur_confidence r = 0.6) ).
Proof.
  intros high medium r. subst r. unfold classify_urgency.
  fold high. fold medium.
  destruct (Z.leb_spec 3 high) as [H3 | H3].
  - split; [reflexivity|]. left. auto.
  - destruct (Z.leb_spec 1 high) as [H1 | H1]; simpl orb.
    + split; [reflexivity|]. right; left. auto.
    + destruct (Z.leb_spec 2 medium) as [H2 | H2].
      * split; [reflexivity|]. right; left. auto.
      * split; [reflexivity|]. right; right. auto.
Qed.

(** C3.  For every text and sentiment label, [classify_urgency] applies
    the sentiment adjustment to the high score (+2 for negative, -1 for
    positive, unchanged otherwise) and then decides by the ordered rules:
    high score at least 3 gives "high" with confidence
    min(0.9, 0.5 + high*0.1); else high at least 1 or medium at least 2
    gives "medium" with confidence min(0.8, 0.4 + (high+medium)*0.1);
    otherwise "low" with confidence 0.6.  The reported keyword matches
    are the adjusted high score and the medium score. *)
Theorem classify_urgency_decision (text sentiment : string) :
  exists high : Z,
    adjusted (keyword_score high_urgency_keywords (lower text)) sentiment high /\
    decision high (keyword_score medium_urgency_keywords (lower text))
             (ur_urgency (classify_urgency text sentiment))
             (ur_confidence (classify_urgency text sentiment)) /\
    ur_keyword_matches (classify_urgency text sentiment) =
    mkKeywordMatches high (keyword_score medium_urgency_keywords (lower text)).
Proof.
  exists (adjust_for_sentiment sentiment
            (keyword_score high_urgency_keywords (lower text))).
  split; [apply adjust_for_sentiment_adjusted|].
  destruct (classify_urgency_cases text sentiment) as [Hk Hc].
  split; [|exact Hk].
  destruct Hc as [[H3 [-> ->]] | [[H3 [H12 [-> ->]]] | [H1 [H2 [-> ->]]]]].
  - now apply decide_high.
  - apply decide_medium; [lia | exact H12].
  - apply decide_low; lia.
Qed.

(** The label and the range of the confidence, rule by rule. *)
Lemma classify_urgency_bounds (text sentiment : string) :
  (ur_urgency (classify_urgency text sentiment) = "high" /\
   (0.8 <= ur_confidence (classify_urgency text sentiment))%Q /\
   (ur_confidence (classify_urgency text sentiment) <= 0.9)%Q)
  \/ (ur_urgency (classify_urgency text sentiment) = "medium" /\
      (0.5 <= ur_confidence (classify_urgency text sentiment))%Q /\
      (ur_confidence (classify_urgency text sentiment) <= 0.8)%Q)
  \/ (ur_urgency (classify_urgency text sentiment) = "low" /\
      ur_confidence (classify_urgency text sentiment) = 0.6).
Proof.
  destruct (classify_urgency_cases text sentiment) as [_ Hc].
  pose proof (keyword_score_bounds high_urgency_keywords (lower text)) as [Hh _].
  pose proof (keyword_score_bounds medium_urgency_keywords (lower text)) as [Hm _].
  pose proof (adjust_for_sentiment_lower sentiment
                (keyword_score high_urgency_keywords (lower text))) as Ha.
  set (high := adjust_for_sentiment sentiment
                 (keyword_score high_urgency_keywords (lower text))) in *.
  set (medium := keyword_score medium_urgency_keywords (lower text)) in *.
  destruct Hc as [[H3 [-> ->]] | [[H3 [H12 [-> ->]]] | [H1 [H2 [-> ->]]]]].
  - pose proof (float_ge H3) as Hq.
    left. split; [reflexivity|]. split; [apply min_glb; lra | apply min_le_l].
  - assert (Hq : (1 # 1 <= float (high + medium))%Q) by (apply float_ge; lia).
    right; left. split; [reflexivity|].
    split; [apply min_glb; lra | apply min_le_l].
  - right; right. split; reflexivity.
Qed.

Lemma classify_urgency_label (text sentiment : string) :
  In (ur_urgency (classify_urgency text sentiment)) ["low"; "medium"; "high"].
Proof.
  destruct (classify_urgency_bounds text sentiment)
    as [[-> _] | [[-> _] | [-> _]]]; simpl; auto.
Qed.

Lemma classify_urgency_confidence_unit (text sentiment : string) :
  (0 <= ur_confidence (classify_urgency text sentiment) /\
   ur_confidence (classify_urgency text sentiment) <= 9 # 10)%Q.
Proof.
  destruct (classify_urgency_bounds text sentiment)
    as [[_ [H1 H2]] | [[_ [H1 H2]] | [_ ->]]]; split; lra.
Qed.

(** C5.  For every text and sentiment, [classify_urgency] returns an
    urgency among low, medium and high and a confidence in [0, 0.9]:
    at most 0.9 when the urgency is "high", at most 0.8 when it is
    "medium", and exactly 0.6 when it is "low". *)
Theorem classify_urgency_range (text sentiment : string) :
  In (ur_urgency (classify_urgency text sentiment)) ["low"; "medium"; "high"] /\
  (0 <= ur_confidence (classify_urgency text sentiment))%Q /\
  (ur_confidence (classify_urgency text sentiment) <= 0.9)%Q /\
  ( (ur_urgency (classify_urgency text sentiment) = "high" /\
     (ur_confidence (classify_urgency text sentiment) <= 0.9)%Q)
    \/ (ur_urgency (classify_urgency text sentiment) = "medium" /\
        (ur_confidence (classify_urgency text sentiment) <= 0.8)%Q)
    \/ (ur_urgency (classify_urgency text sentiment) = "low" /\
        ur_confidence (classify_urgency text sentiment) = 0.6) ).
Proof.
  split; [apply classify_urgency_label|].
  split; [apply classify_urgency_confidence_unit|].
  split; [apply classify_urgency_confidence_unit|].
  destruct (classify_urgency_bounds text sentiment)
    as [[Hu [_ H]] | [[Hu [_ H]] | [Hu H]]]; auto.
Qed.

(** C8, as stated, fails: a term that occurs twice is counted once.  In
    "urgent urgent" the term "urgent" occurs twice and no other
    high-urgency term occurs; the reported high score is 1, the number of
    occurrences is 2. *)
Lemma keyword_score_repeated_term :
  km_high (ur_keyword_matches (classify_urgency "urgent urgent" "neutral")) = 1%Z /\
  occurrence_score high_urgency_keywords "urgent urgent" = 2%Z /\
  km_high (ur_keyword_matches (classify_urgency "urgent urgent" "neutral")) <>
  occurrence_score high_urgency_keywords "urgent urgent".
Proof. vm_compute. repeat split; discriminate. Qed.

(** C8, amended.  Each score is the number of terms of the keyword set
    that occur at least once, as a substring, in the lower-cased text
    (the high score then takes the sentiment adjustment): a term counts
    once however often it occurs, so the medium score is at most 9, the
    size of its set, and at most the number of occurrences; the scores do
    not depend on the case of the text. *)
Theorem keyword_scores_count_present_terms (text sentiment : string) :
  km_medium (ur_keyword_matches (classify_urgency text sentiment)) =
    Z.of_nat (List.length
                (filter (fun keyword => (0 <? occurrences keyword (lower text))%nat)
                        medium_urgency_keywords)) /\
  km_high (ur_keyword_matches (classify_urgency text sentiment)) =
    adjust_for_sentiment sentiment
      (Z.of_nat (List.length
                   (filter (fun keyword => (0 <? occurrences keyword (lower text))%nat)
                           high_urgency_keywords))) /\
  (0 <= km_medium (ur_keyword_matches (classify_urgency text sentiment)) <= 9)%Z /\
  (km_medium (ur_keyword_matches (classify_urgency text sentiment))
   <= occurrence_score medium_urgency_keywords text)%Z /\
  classify_urgency (upper text) sentiment = classify_urgency text sentiment.
Proof.
  destruct (classify_urgency_cases text sentiment) as [Hk _].
  rewrite Hk. cbn [km_medium km_high].
  rewrite !keyword_score_length.
  rewrite !(filter_ext _ _ (fun k => contains_occurrences k (lower text))).
  split; [reflexivity|]. split; [reflexivity|]. split; [|split].
  - split; [lia|].
    apply (Nat2Z.inj_le _ 9), (filter_length_le _ medium_urgency_keywords).
  - unfold occurrence_score. apply Nat2Z.inj_le.
    rewrite <- (filter_ext _ _ (fun k => contains_occurrences k (lower text))).
    apply present_le_occurrences.
  - unfold classify_urgency. now rewrite lower_upper.
Qed.

(** C9, as stated, fails: with the empty text and negative sentiment the
    adjusted high score is 2 and the urgency is "medium", not "low". *)
Lemma classify_urgency_empty_negative :
  ~ (forall sentiment : string,
       ur_urgency (classify_urgency "" sentiment) = "low").
Proof. intros H. specialize (H "negative"). vm_compute in H. discriminate. Qed.

(** C9, amended.  [classify_urgency] yields a result, with an urgency
    among low, medium and high, for every text and every sentiment
    label.  For the empty text both keyword counts are zero, and the
    urgency is "low" unless the sentiment is "negative", where the
    adjustment makes it "medium". *)
Theorem classify_urgency_total_and_empty (text sentiment : string) :
  (exists urgency confidence high medium,
      classify_urgency text sentiment =
      mkUrgencyResult urgency confidence (mkKeywordMatches high medium) /\
      In urgency ["low"; "medium"; "high"]) /\
  keyword_score high_urgency_keywords (lower "") = 0%Z /\
  keyword_score medium_urgency_keywords (lower "") = 0%Z /\
  ur_urgency (classify_urgency "" sentiment) =
    (if String.eqb sentiment "negative" then "medium" else "low").
Proof.
  split.
  - pose proof (classify_urgency_label text sentiment) as Hin.
    destruct (classify_urgency text sentiment) as [u c [h m]].
    exists u, c, h, m. split; [reflexivity | exact Hin].
  - split; [reflexivity|]. split; [reflexivity|].
    unfold classify_urgency.
    change (keyword_score high_urgency_keywords (lower "")) with 0%Z.
    change (keyword_score medium_urgency_keywords (lower "")) with 0%Z.
    unfold adjust_for_sentiment.
    destruct (String.eqb sentiment "negative");
      [|destruct (String.eqb sentiment "positive")];
      vm_compute; reflexivity.
Qed.

(** C10, as stated, fails: the text matches one medium-urgency term and
    no high-urgency term, which is below both thresholds of the "medium"
    rule; the urgency returned is "low". *)
Lemma quick_question_not_medium :
  ur_urgency (classify_urgency "Hi, just a quick question about billing."
                               "neutral") <> "medium".
Proof. vm_compute. discriminate. Qed.

(** C10, amended.  For "Hi, just a quick question about billing." with
    sentiment neutral the high score is 0, the medium score is 1
    ("question"), and [classify_urgency] returns urgency "low" with
    confidence 0.6. *)
Theorem quick_question_low :
  classify_urgency "Hi, just a quick question about billing." "neutral" =
  mkUrgencyResult "low" 0.6 (mkKeywordMatches 0 1) /\
  filter (fun keyword =>
            contains keyword (lower "Hi, just a quick question about billing."))
         medium_urgency_keywords = ["question"].
Proof. vm_compute. split; reflexivity. Qed.

End UrgencyClassifier.

(* ================================================================== *)
(** ** The classifier's confidence in binary64 *)
(* ================================================================== *)

Section Binary64Bounds.

Lemma Z_range_In (lo : Z) (n : nat) (z : Z) :
  (lo <= z < lo + Z.of_nat n)%Z -> In z (Binary64.Z_range lo n).
Proof.
  intros H. unfold Binary64.Z_range. apply in_map_iff.
  exists (Z.to_nat (z - lo)). split; [lia|]. apply in_seq. lia.
Qed.

Lemma adjust_for_sentiment_upper (sentiment : string) (high_score : Z) :
  (adjust_for_sentiment sentiment high_score <= high_score + 2)%Z.
Proof.
  unfold adjust_for_sentiment.
  destruct (String.eqb sentiment "negative");
    [|destruct (String.eqb sentiment "positive")]; lia.
Qed.

(** With binary64 rounding too, the confidence of every result
    [classify_urgency] can produce lies in [0, 0.9], is at most 0.9 under
    the "high" rule, at most 0.8 under the "medium" rule, and is 0.6 under
    the "low" rule. *)
Lemma binary64_confidence_within_bounds (text sentiment : string) :
  Binary64.within_bounds
    (km_high (ur_keyword_matches (classify_urgency text sentiment)))
    (km_medium (ur_keyword_matches (classify_urgency text sentiment))) = true.
Proof.
  destruct (classify_urgency_cases text sentiment) as [-> _].
  cbn [km_high km_medium].
  pose proof (keyword_score_bounds high_urgency_keywords (lower text)) as Hh.
  pose proof (keyword_score_bounds medium_urgency_keywords (lower text)) as Hm.
  pose proof (adjust_for_sentiment_lower sentiment
                (keyword_score high_urgency_keywords (lower text))) as Hl.
  pose proof (adjust_for_sentiment_upper sentiment
                (keyword_score high_urgency_keywords (lower text))) as Hu.
  change (Z.of_nat (List.length high_urgency_keywords)) with 15%Z in Hh.
  change (Z.of_nat (List.length medium_urgency_keywords)) with 9%Z in Hm.
  assert (Hall : Binary64.all_within_bounds = true) by (vm_compute; reflexivity).
  unfold Binary64.all_within_bounds in Hall.
  rewrite forallb_forall in Hall.
  assert (Hrow : In (adjust_for_sentiment sentiment
                        (keyword_score high_urgency_keywords (lower text)))
                     (Binary64.Z_range (-1) 19)) by (apply Z_range_In; lia).
  apply Hall in Hrow. rewrite forallb_forall in Hrow.
  apply Hrow. apply Z_range_In. lia.
Qed.

End Binary64Bounds.

(* ================================================================== *)
(** ** Ticket validation and the collaborators *)
(* ================================================================== *)

Section Validation.

Lemma mem_In (x : string) (xs : list string) : mem x xs = true <-> In x xs.
Proof.
  unfold mem. rewrite existsb_exists. split.
  - intros [y [Hy E]]. apply String.eqb_eq in E. now subst y.
  - intros H. exists x. split; [exact H | apply String.eqb_refl].
Qed.

Lemma Entity_init_ok_iff (e : Entity) :
  is_ok (Entity_init e) = true <-> entity_invariants e.
Proof.
  unfold Entity_init, entity_invariants. rewrite <- in_unit_interval_iff.
  destruct (in_unit_interval (ent_confidence e)); simpl; split; auto.
Qed.

Lemma entities_valid_iff (es : list Entity) :
  forallb (fun e => is_ok (Entity_init e)) es = true <->
  Forall entity_invariants es.
Proof.
  rewrite forallb_forall, Forall_forall.
  split; intros H e He; apply Entity_init_ok_iff, H, He.
Qed.

(** A [Ticket] that comes out of the constructor is the one that went in,
    and it satisfies the invariants. *)
Lemma Ticket_init_inv (kw t : Ticket) :
  Ticket_init kw = Ok t -> t = kw /\ ticket_invariants kw.
Proof.
  unfold Ticket_init, ticket_invariants.
  destruct (mem (sentiment kw) sentiment_values) eqn:Hs; cbn [negb]; [|discriminate].
  destruct (mem (urgency kw) urgency_values) eqn:Hu; cbn [negb]; [|discriminate].
  destruct (entities kw) as [es|] eqn:He; [|discriminate].
  destruct (forallb (fun e => is_ok (Entity_init e)) es) eqn:Hv; cbn [negb];
    [|discriminate].
  destruct (in_unit_interval (confidence_score kw)) eqn:Hc; cbn [negb]; [|discriminate].
  intros H. injection H as <-. split; [reflexivity|].
  apply mem_In in Hs. apply mem_In in Hu. apply in_unit_interval_iff in Hc.
  apply entities_valid_iff in Hv.
  split; [exact Hs|]. split; [exact Hu|]. split; [exact Hc|]. now exists es.
Qed.

(** The constructor accepts every argument record that satisfies the
    invariants. *)
Lemma Ticket_init_valid (kw : Ticket) :
  ticket_invariants kw -> Ticket_init kw = Ok kw.
Proof.
  intros [Hs [Hu [Hc [es [He Hv]]]]].
  unfold Ticket_init, sentiment_values, urgency_values.
  apply mem_In in Hs. apply mem_In in Hu. apply in_unit_interval_iff in Hc.
  apply entities_valid_iff in Hv.
  rewrite Hs, Hu, He, Hv, Hc. reflexivity.
Qed.

(** Every entity built by [extract_entities] carries confidence 1.0. *)
Lemma entities_of_spans_valid (spans : list Span) (es : list Entity) :
  entities_of_spans spans = Ok es -> Forall entity_invariants es.
Proof.
  revert es; induction spans as [|ent rest IH]; intros es; simpl.
  - intros H. injection H as <-. constructor.
  - destruct (entities_of_spans rest) as [es'|]; simpl; [|discriminate].
    intros H. injection H as <-. constructor; [|now apply IH].
    unfold entity_invariants. simpl. split; lra.
Qed.

Lemma extract_entities_valid (m : Models) (text : string) (es : list Entity) :
  extract_entities m text = Ok es -> Forall entity_invariants es.
Proof.
  unfold extract_entities. destruct (nlp m text) as [doc|]; simpl; [|discriminate].
  apply entities_of_spans_valid.
Qed.

Lemma sentiment_map_get_label (label : string) :
  In (sentiment_map_get label) ["positive"; "neutral"; "negative"].
Proof.
  unfold sentiment_map_get.
  destruct (String.eqb label "POSITIVE"); [simpl; auto|].
  destruct (String.eqb label "NEGATIVE"); simpl; auto.
Qed.

(** Whatever the pipeline answers, the label [analyze_sentiment] reports
    is one of the three sentiment values. *)
Lemma analyze_sentiment_label (m : Models) (text : string) (sr : SentimentResult) :
  analyze_sentiment m text = Ok sr ->
  In (sr_sentiment sr) ["positive"; "neutral"; "negative"].
Proof.
  unfold analyze_sentiment.
  destruct (sentiment_pipeline m text) as [out|]; simpl; [|discriminate].
  destruct (first out) as [results|]; simpl; [|discriminate].
  destruct (max_by ls_score results) as [best|]; simpl; [|discriminate].
  intros H. injection H as <-. apply sentiment_map_get_label.
Qed.

Lemma mean_in_unit (a b : Q) :
  (0 <= a /\ a <= 1)%Q -> (0 <= b /\ b <= 9 # 10)%Q ->
  (0 <= (a + b) / 2 /\ (a + b) / 2 <= 1)%Q.
Proof.
  intros [Ha1 Ha2] [Hb1 Hb2]. unfold Qdiv. change (/ 2)%Q with (1 # 2)%Q.
  split; lra.
Qed.

End Validation.

(* ================================================================== *)
(** ** TriageAgent *)
(* ================================================================== *)

Section TriageAgent.

Lemma summary_expr_rule (text : string) :
  summary_rule text
    (if (100 <? len text)%nat then slice_to 100 text ++ "..." else text).
Proof.
  unfold summary_rule, len. destruct (Nat.ltb_spec 100 (String.length text)) as [H | H].
  - right. split; [exact H|].
    destruct (@slice_to_split 100 text) as [rest [Ht Hl]]; [lia|].
    exists (slice_to 100 text), rest. auto.
  - left. auto.
Qed.

(** What a ticket built by the fallback looks like. *)
Lemma fallback_ticket_inv (email_text : string) (entities : list Entity)
      (product_mentions : list string) (sentiment_result : SentimentResult)
      (urgency_result : UrgencyResult) (t : Ticket) :
  _create_fallback_ticket email_text entities product_mentions
                          sentiment_result urgency_result = Ok t ->
  customer_id t = fallback_customer_id entities /\
  product t = match product_mentions with
              | p :: _ => p
              | [] => "General Support"
              end /\
  sentiment t = sr_sentiment sentiment_result /\
  urgency t = ur_urgency urgency_result /\
  models.entities t = Some entities /\
  summary t = (if (100 <? len email_text)%nat
               then slice_to 100 email_text ++ "..." else email_text) /\
  next_action t = (if String.eqb (ur_urgency urgency_result) "high"
                   then "escalate_to_tier_2" else "assign_to_support") /\
  confidence_score t =
    (sr_confidence sentiment_result + ur_confidence urgency_result) / 2 /\
  ticket_invariants t.
Proof.
  unfold _create_fallback_ticket. intros H.
  apply Ticket_init_inv in H as [-> Hi]. repeat (split; [reflexivity|]).
  exact Hi.
Qed.

(** The fallback cannot fail on signals that respect their contracts. *)
Lemma fallback_ticket_ok (email_text : string) (entities : list Entity)
      (product_mentions : list string) (sentiment_result : SentimentResult)
      (urgency_result : UrgencyResult) :
  Forall entity_invariants entities ->
  In (sr_sentiment sentiment_result) ["positive"; "neutral"; "negative"] ->
  In (ur_urgency urgency_result) ["low"; "medium"; "high"] ->
  (0 <= sr_confidence sentiment_result /\ sr_confidence sentiment_result <= 1)%Q ->
  (0 <= ur_confidence urgency_result /\ ur_confidence urgency_result <= 9 # 10)%Q ->
  exists t, _create_fallback_ticket email_text entities product_mentions
                                    sentiment_result urgency_result = Ok t.
Proof.
  intros He Hs Hu Hcs Hcu. unfold _create_fallback_ticket.
  eexists. apply Ticket_init_valid. unfold ticket_invariants.
  cbn [sentiment urgency confidence_score models.entities].
  split; [exact Hs|]. split; [exact Hu|]. split; [now apply mean_in_unit|].
  now exists entities.
Qed.

Lemma llm_synthesis_inv (self : TriageAgent) (email_text : string)
      (entities : list Entity) (product_mentions : list string)
      (sentiment_result : SentimentResult) (urgency_result : UrgencyResult)
      (t : Ticket) :
  llm_synthesis self email_text entities product_mentions
                sentiment_result urgency_result = Ok t ->
  exists data,
    agent_run self (mkPrompt email_text entities product_mentions
                             (sr_sentiment sentiment_result)
                             (sr_confidence sentiment_result)
                             (ur_urgency urgency_result)
                             (ur_confidence urgency_result)) = Ok data /\
    t = set_confidence_score data
          ((sr_confidence sentiment_result + ur_confidence urgency_result) / 2) /\
    ticket_invariants t.
Proof.
  unfold llm_synthesis.
  destruct (agent_run self _) as [data|]; simpl; [|discriminate].
  intros H. apply Ticket_init_inv in H as [-> Hi]. now exists data.
Qed.

(** A ticket comes out of [process_email] only after all three signal
    computations succeeded, and then either from the LLM step or, the
    LLM step having raised, from the fallback. *)
Lemma process_email_inv (self : TriageAgent) (email_text : string) (t : Ticket) :
  process_email self email_text = Ok t ->
  exists entities product_mentions sentiment_result,
    extract_entities (ml self) email_text = Ok entities /\
    extract_product_mentions (ml self) email_text = Ok product_mentions /\
    analyze_sentiment (ml self) email_text = Ok sentiment_result /\
    ( llm_synthesis self email_text entities product_mentions sentiment_result
        (classify_urgency email_text (sr_sentiment sentiment_result)) = Ok t
      \/ ((exists e,
             llm_synthesis self email_text entities product_mentions
               sentiment_result
               (classify_urgency email_text (sr_sentiment sentiment_result))
             = Raise e /\ is_exception e = true) /\
          _create_fallback_ticket email_text entities product_mentions
            sentiment_result
            (classify_urgency email_text (sr_sentiment sentiment_result))
          = Ok t) ).
Proof.
  unfold process_email.
  destruct (extract_entities (ml self) email_text) as [es|]; simpl; [|discriminate].
  destruct (extract_product_mentions (ml self) email_text) as [ps|]; simpl;
    [|discriminate].
  destruct (analyze_sentiment (ml self) email_text) as [sr|]; simpl; [|discriminate].
  intros H. exists es, ps, sr. repeat (split; [reflexivity|]).
  destruct (llm_synthesis self email_text es ps sr _) as [t'|e] eqn:E; simpl in H.
  - left. exact H.
  - destruct (is_exception e) eqn:Ee; [|discriminate].
    right. split; [now exists e | exact H].
Qed.

Lemma create_demo_ticket_summary (m : Models) (email_text : string) (t : Ticket) :
  create_demo_ticket m email_text = Ok t ->
  summary t = (if (100 <? len email_text)%nat
               then slice_to 100 email_text ++ "..." else email_text).
Proof.
  unfold create_demo_ticket.
  destruct (extract_entities m email_text) as [es|]; simpl; [|discriminate].
  destruct (extract_product_mentions m email_text) as [ps|]; simpl; [|discriminate].
  destruct (analyze_sentiment m email_text) as [sr|]; simpl; [|discriminate].
  intros H. apply Ticket_init_inv in H as [-> _]. reflexivity.
Qed.



(** C2.  Every Ticket returned by [process_email] satisfies the
    data-model invariants: its sentiment is positive, neutral or
    negative, its urgency is low, medium or high, its confidence score
    lies in [0,1] and its entities are a sequence, not None; this holds
    whether the LLM step succeeded or the fallback built the ticket. *)
Theorem process_email_ticket_invariants
        (self : TriageAgent) (email_text : string) (t : Ticket) :
  process_email self email_text = Ok t ->
  In (sentiment t) ["positive"; "neutral"; "negative"] /\
  In (urgency t) ["low"; "medium"; "high"] /\
  (0 <= confidence_score t)%Q /\ (confidence_score t <= 1)%Q /\
  exists es : list Entity,
    models.entities t = Some es /\ Forall entity_invariants es.
Proof.
  intros H.
  assert (Hi : ticket_invariants t).
  { apply process_email_inv in H as [es [ps [sr [_ [_ [_ [Hl | [_ Hf]]]]]]]].
    - apply llm_synthesis_inv in Hl as [data [_ [_ Hi]]]. exact Hi.
    - now apply fallback_ticket_inv in Hf. }
  destruct Hi as [Hs [Hu [[Hc0 Hc1] He]]].
  repeat (split; [assumption|]). exact He.
Qed.

(** C4.  A Ticket returned by [process_email] comes from the LLM step
    or, that step having raised, from the fallback; on both paths its
    confidence score is the arithmetic mean of the sentiment confidence
    and the urgency confidence, and on the LLM path the ticket is the
    LLM's answer with its own score replaced by that mean. *)
Theorem process_email_confidence_fusion
        (self : TriageAgent) (email_text : string) (t : Ticket) :
  process_email self email_text = Ok t ->
  exists entities product_mentions sentiment_result,
    analyze_sentiment (ml self) email_text = Ok sentiment_result /\
    confidence_score t =
      (sr_confidence sentiment_result +
       ur_confidence (classify_urgency email_text (sr_sentiment sentiment_result)))
      / 2 /\
    ( (exists data,
          agent_run self
            (mkPrompt email_text entities product_mentions
               (sr_sentiment sentiment_result) (sr_confidence sentiment_result)
               (ur_urgency (classify_urgency email_text
                                             (sr_sentiment sentiment_result)))
               (ur_confidence (classify_urgency email_text
                                                (sr_sentiment sentiment_result))))
          = Ok data /\
          t = set_confidence_score data
                (fused_confidence
                   (sr_confidence sentiment_result)
                   (ur_confidence (classify_urgency email_text
                                     (sr_sentiment sentiment_result)))))
      \/ _create_fallback_ticket email_text entities product_mentions
           sentiment_result
           (classify_urgency email_text (sr_sentiment sentiment_result))
         = Ok t ).
Proof.
  intros H.
  apply process_email_inv in H as [es [ps [sr [_ [_ [Hs [Hl | [_ Hf]]]]]]]];
    exists es, ps, sr; (split; [exact Hs|]).
  - apply llm_synthesis_inv in Hl as [data [Hd [-> _]]].
    split; [reflexivity|]. left. now exists data.
  - split; [|now right]. now apply fallback_ticket_inv in Hf.
Qed.

(** C6.  In a ticket built by [_create_fallback_ticket], and in one
    built by [create_demo_ticket], the summary is the email text
    unchanged when the text has at most 100 characters, and otherwise
    exactly its first 100 characters followed by "...". *)
Theorem fallback_summary_rule
        (m : Models) (email_text : string) (entities : list Entity)
        (product_mentions : list string) (sentiment_result : SentimentResult)
        (urgency_result : UrgencyResult) (t : Ticket) :
  _create_fallback_ticket email_text entities product_mentions
                          sentiment_result urgency_result = Ok t
  \/ create_demo_ticket m email_text = Ok t ->
  summary_rule email_text (summary t).
Proof.
  intros [H | H].
  - apply fallback_ticket_inv in H as [_ [_ [_ [_ [_ [-> _]]]]]].
    apply summary_expr_rule.
  - rewrite (create_demo_ticket_summary _ _ H). apply summary_expr_rule.
Qed.

(** C7, as stated, fails: the summary is taken from the email text,
    which is not among the listed inputs.  With the same entities,
    product mentions, sentiment result and urgency result, two email
    texts give two fallback tickets with different summaries. *)
Lemma fallback_summary_not_determined :
  ~ (forall (text1 text2 : string) (entities : list Entity)
            (product_mentions : list string) (sentiment_result : SentimentResult)
            (urgency_result : UrgencyResult) (t1 t2 : Ticket),
        _create_fallback_ticket text1 entities product_mentions
                                sentiment_result urgency_result = Ok t1 ->
        _create_fallback_ticket text2 entities product_mentions
                                sentiment_result urgency_result = Ok t2 ->
        summary t1 = summary t2).
Proof.
  intros H.
  specialize (H "first email" "second email" [] [] neutral_result low_result
                _ _ eq_refl eq_refl).
  vm_compute in H. discriminate.
Qed.

(** C7, amended.  The fallback ticket is a function of the email text
    together with the entities, product mentions, sentiment result and
    urgency result: of two fallback tickets, the customer ids agree when
    the entities do, the products agree when the product mentions do,
    the summaries agree when the email texts do, and the next actions
    agree when the urgency labels do; with all five inputs identical the
    two tickets are identical. *)
Theorem fallback_ticket_determined
        (text1 text2 : string) (entities1 entities2 : list Entity)
        (products1 products2 : list string)
        (sentiment1 sentiment2 : SentimentResult)
        (urgency1 urgency2 : UrgencyResult) (t1 t2 : Ticket) :
  _create_fallback_ticket text1 entities1 products1 sentiment1 urgency1 = Ok t1 ->
  _create_fallback_ticket text2 entities2 products2 sentiment2 urgency2 = Ok t2 ->
  (entities1 = entities2 -> customer_id t1 = customer_id t2) /\
  (products1 = products2 -> product t1 = product t2) /\
  (text1 = text2 -> summary t1 = summary t2) /\
  (ur_urgency urgency1 = ur_urgency urgency2 -> next_action t1 = next_action t2) /\
  (text1 = text2 -> entities1 = entities2 -> products1 = products2 ->
   sentiment1 = sentiment2 -> urgency1 = urgency2 -> t1 = t2).
Proof.
  intros H1 H2.
  pose proof (fallback_ticket_inv _ _ _ _ _ H1)
    as [Hc1 [Hp1 [_ [_ [_ [Hs1 [Hn1 _]]]]]]].
  pose proof (fallback_ticket_inv _ _ _ _ _ H2)
    as [Hc2 [Hp2 [_ [_ [_ [Hs2 [Hn2 _]]]]]]].
  rewrite Hc1, Hc2, Hp1, Hp2, Hs1, Hs2, Hn1, Hn2.
  repeat split; try (intros ->; reflexivity).
  intros -> -> -> -> ->. rewrite H1 in H2. now injection H2.
Qed.

End TriageAgent.

(* ================================================================== *)
(** ** Worked instances *)
(* ================================================================== *)

Section Instances.

Example long_email_length : String.length long_email = 110%nat.
Proof. reflexivity. Qed.


(** The LLM answers; its ticket, with the fused score, is returned and
    satisfies the invariants. *)
Lemma process_email_ticket_invariants_witness :
  process_email agent_llm_up short_email = Ok fused_llm_ticket /\
  (In (sentiment fused_llm_ticket) ["positive"; "neutral"; "negative"] /\
   In (urgency fused_llm_ticket) ["low"; "medium"; "high"] /\
   (0 <= confidence_score fused_llm_ticket)%Q /\
   (confidence_score fused_llm_ticket <= 1)%Q /\
   exists es : list Entity,
     models.entities fused_llm_ticket = Some es /\ Forall entity_invariants es).
Proof.
  split; [reflexivity|].
  apply (@process_email_ticket_invariants agent_llm_up short_email).
  reflexivity.
Defined.

(** The LLM proposes 0.99; the ticket returned carries the mean of 0.98
    and the urgency confidence instead. *)
Lemma process_email_confidence_fusion_witness :
  process_email agent_llm_up short_email = Ok fused_llm_ticket /\
  confidence_score llm_ticket = 0.99 /\
  (confidence_score fused_llm_ticket == 0.89)%Q /\
  exists sentiment_result,
    analyze_sentiment (ml agent_llm_up) short_email = Ok sentiment_result /\
    confidence_score fused_llm_ticket =
      (sr_confidence sentiment_result +
       ur_confidence (classify_urgency short_email (sr_sentiment sentiment_result)))
      / 2.
Proof.
  split; [reflexivity|]. split; [reflexivity|]. split; [reflexivity|].
  destruct (@process_email_confidence_fusion agent_llm_up short_email
              fused_llm_ticket eq_refl)
    as [es [ps [sr [Hs [Hc _]]]]].
  exists sr. split; [exact Hs | exact Hc].
Defined.

(** A 110-character email: the summary is its first 100 characters and
    an ellipsis. *)
Lemma fallback_summary_rule_witness :
  exists t,
    _create_fallback_ticket long_email [] [] neutral_result low_result = Ok t /\
    String.length (summary t) = 103%nat /\
    summary_rule long_email (summary t).
Proof.
  eexists. split; [reflexivity|]. split; [reflexivity|].
  apply (@fallback_summary_rule models_up long_email [] [] neutral_result low_result).
  left. reflexivity.
Defined.

(** Two emails with the same signals: the summaries differ, the other
    derived fields agree. *)
Lemma fallback_ticket_determined_witness :
  exists t1 t2,
    _create_fallback_ticket "first email" [] [] neutral_result low_result = Ok t1 /\
    _create_fallback_ticket "second email" [] [] neutral_result low_result = Ok t2 /\
    customer_id t1 = customer_id t2 /\
    product t1 = product t2 /\
    next_action t1 = next_action t2.
Proof.
  eexists. eexists. split; [reflexivity|]. split; [reflexivity|].
  destruct (@fallback_ticket_determined
              "first email" "second email" [] [] [] []
              neutral_result neutral_result low_result low_result
              _ _ eq_refl eq_refl)
    as [Hc [Hp [_ [Hn _]]]].
  split; [exact (Hc eq_refl)|]. split; [exact (Hp eq_refl) | exact (Hn eq_refl)].
Defined.

End Instances.


(* ================================================================== *)
(** ** UrgencyClassifier: how the urgency moves with its inputs *)
(* ================================================================== *)

Section UrgencyOrder.

Lemma str_app_assoc (a b c : string) : ((a ++ b) ++ c = a ++ (b ++ c))%string.
Proof. induction a as [|x a IH]; simpl; [reflexivity | now rewrite IH]. Qed.

Lemma map_str_app (f : ascii -> ascii) (a b : string) :
  map_str f (a ++ b) = (map_str f a ++ map_str f b)%string.
Proof. induction a as [|x a IH]; simpl; [reflexivity | now rewrite IH]. Qed.

Lemma contains_embedded (p pre s post : string) :
  contains p s = true -> contains p (pre ++ s ++ post) = true.
Proof.
  rewrite !contains_iff. intros [p1 [p2 ->]].
  exists (pre ++ p1)%string, (p2 ++ post)%string.
  now rewrite !str_app_assoc.
Qed.

Lemma filter_length_mono {A : Type} (f g : A -> bool) (l : list A) :
  (forall x, f x = true -> g x = true) ->
  (List.length (filter f l) <= List.length (filter g l))%nat.
Proof.
  intros H. induction l as [|x l IH]; simpl; [lia|].
  destruct (f x) eqn:Ef.
  - rewrite (H x Ef). simpl. lia.
  - destruct (g x); simpl; lia.
Qed.

Lemma keyword_score_embedded (keywords : list string) (pre text post : string) :
  (keyword_score keywords (lower text)
   <= keyword_score keywords (lower (pre ++ text ++ post)))%Z.
Proof.
  rewrite !keyword_score_length. apply Nat2Z.inj_le, filter_length_mono.
  intros k Hk. unfold lower in *. rewrite !map_str_app.
  now apply contains_embedded.
Qed.

(** The rank of the label, read off the adjusted scores. *)
Lemma classify_urgency_rank (text sentiment : string) :
  urgency_rank (ur_urgency (classify_urgency text sentiment)) =
  if (3 <=? adjust_for_sentiment sentiment
              (keyword_score high_urgency_keywords (lower text)))%Z
  then 2%nat
  else if (1 <=? adjust_for_sentiment sentiment
                   (keyword_score high_urgency_keywords (lower text)))%Z
          || (2 <=? keyword_score medium_urgency_keywords (lower text))%Z
       then 1%nat
       else 0%nat.
Proof.
  unfold classify_urgency.
  destruct (3 <=? _)%Z; [reflexivity|].
  destruct ((1 <=? _)%Z || (2 <=? _)%Z); reflexivity.
Qed.

Lemma rank_of_scores_mono (h1 m1 h2 m2 : Z) :
  (h1 <= h2)%Z -> (m1 <= m2)%Z ->
  ((if (3 <=? h1)%Z then 2
    else if (1 <=? h1)%Z || (2 <=? m1)%Z then 1 else 0)
   <= (if (3 <=? h2)%Z then 2
       else if (1 <=? h2)%Z || (2 <=? m2)%Z then 1 else 0))%nat.
Proof.
  intros Hh Hm.
  destruct (Z.leb_spec 3 h1), (Z.leb_spec 3 h2),
           (Z.leb_spec 1 h1), (Z.leb_spec 1 h2),
           (Z.leb_spec 2 m1), (Z.leb_spec 2 m2); simpl; lia.
Qed.

Lemma adjust_for_sentiment_mono (sentiment : string) (a b : Z) :
  (a <= b)%Z ->
  (adjust_for_sentiment sentiment a <= adjust_for_sentiment sentiment b)%Z.
Proof.
  intros H. unfold adjust_for_sentiment.
  destruct (String.eqb sentiment "negative");
    [|destruct (String.eqb sentiment "positive")]; lia.
Qed.

(** The sentiment orders the urgency: for one text, no label gives a
    higher urgency than "negative" and none a lower urgency
    than "positive". *)
Theorem urgency_monotone_in_sentiment (text sentiment : string) :
  (urgency_rank (ur_urgency (classify_urgency text "positive"))
   <= urgency_rank (ur_urgency (classify_urgency text sentiment)))%nat /\
  (urgency_rank (ur_urgency (classify_urgency text sentiment))
   <= urgency_rank (ur_urgency (classify_urgency text "negative")))%nat.
Proof.
  rewrite !classify_urgency_rank.
  pose proof (adjust_for_sentiment_lower sentiment
                (keyword_score high_urgency_keywords (lower text))) as Hl.
  pose proof (adjust_for_sentiment_upper sentiment
                (keyword_score high_urgency_keywords (lower text))) as Hu.
  split; apply rank_of_scores_mono; try lia.
  - change (adjust_for_sentiment "positive"
              (keyword_score high_urgency_keywords (lower text)))
      with (keyword_score high_urgency_keywords (lower text) - 1)%Z.
    exact Hl.
  - change (adjust_for_sentiment "negative"
              (keyword_score high_urgency_keywords (lower text)))
      with (keyword_score high_urgency_keywords (lower text) + 2)%Z.
    exact Hu.
Qed.

(** An email with negative sentiment is never classified "low", whatever
    its text; its confidence is then at least 0.5. *)
Theorem negative_sentiment_at_least_medium (text : string) :
  In (ur_urgency (classify_urgency text "negative")) ["medium"; "high"] /\
  (0.5 <= ur_confidence (classify_urgency text "negative"))%Q.
Proof.
  destruct (classify_urgency_cases text "negative") as [_ Hc].
  pose proof (keyword_score_bounds high_urgency_keywords (lower text)) as [Hh _].
  change (adjust_for_sentiment "negative"
            (keyword_score high_urgency_keywords (lower text)))
    with (keyword_score high_urgency_keywords (lower text) + 2)%Z in Hc.
  destruct (classify_urgency_bounds text "negative")
    as [[Hu [Hc1 _]] | [[Hu [Hc1 _]] | [Hu _]]].
  - rewrite Hu. split; [simpl; auto | lra].
  - rewrite Hu. split; [simpl; auto | exact Hc1].
  - destruct Hc as [[_ [Hu' _]] | [[_ [_ [Hu' _]]] | [H1 _]]];
      try (rewrite Hu in Hu'; discriminate). lia.
Qed.

(** Surrounding a text with more text never lowers its urgency: the
    keyword scores, and with them the rank of the label, can only grow. *)
Theorem urgency_monotone_in_text (pre text post sentiment : string) :
  (urgency_rank (ur_urgency (classify_urgency text sentiment))
   <= urgency_rank
        (ur_urgency (classify_urgency (pre ++ text ++ post) sentiment)))%nat.
Proof.
  rewrite !classify_urgency_rank. apply rank_of_scores_mono.
  - apply adjust_for_sentiment_mono, keyword_score_embedded.
  - apply keyword_score_embedded.
Qed.

(** Sentiment alone never makes an email "high": a text classified
    "high" contains at least one high-urgency keyword, and at least three
    of them when the sentiment is not "negative". *)
Theorem high_urgency_needs_keywords (text sentiment : string) :
  ur_urgency (classify_urgency text sentiment) = "high" ->
  (exists keyword,
      In keyword high_urgency_keywords /\
      contains keyword (lower text) = true) /\
  (1 <= keyword_score high_urgency_keywords (lower text))%Z /\
  (sentiment = "negative" \/
   3 <= keyword_score high_urgency_keywords (lower text))%Z.
Proof.
  intros Hhigh.
  destruct (classify_urgency_cases text sentiment) as [_ Hc].
  pose proof (adjust_for_sentiment_upper sentiment
                (keyword_score high_urgency_keywords (lower text))) as Hu.
  assert (H3 : (3 <= adjust_for_sentiment sentiment
                       (keyword_score high_urgency_keywords (lower text)))%Z).
  { destruct Hc as [[H3 _] | [[_ [_ [Hu' _]]] | [_ [_ [Hu' _]]]]];
      [exact H3 | rewrite Hhigh in Hu'; discriminate
       | rewrite Hhigh in Hu'; discriminate]. }
  assert (H1 : (1 <= keyword_score high_urgency_keywords (lower text))%Z) by lia.
  split; [|split; [exact H1|]].
  - rewrite keyword_score_length in H1.
    destruct (filter (fun keyword => contains keyword (lower text))
                     high_urgency_keywords) as [|k ks] eqn:E;
      [simpl in H1; lia|].
    assert (Hk : In k (filter (fun keyword => contains keyword (lower text))
                              high_urgency_keywords))
      by (rewrite E; now left).
    apply filter_In in Hk. now exists k.
  - unfold adjust_for_sentiment in H3.
    destruct (String.eqb_spec sentiment "negative") as [-> | Hn];
      [now left | right].
    destruct (String.eqb sentiment "positive"); lia.
Qed.

Lemma high_urgency_needs_keywords_witness :
  ur_urgency (classify_urgency short_email "negative") = "high" /\
  (1 <= keyword_score high_urgency_keywords (lower short_email))%Z.
Proof.
  split; [reflexivity|].
  apply (@high_urgency_needs_keywords short_email "negative"). reflexivity.
Defined.

End UrgencyOrder.

(* ================================================================== *)
(** ** Validation, the extractors and the customer id *)
(* ================================================================== *)

Section Collaborators.

Lemma Ticket_init_cases (kw : Ticket) :
  (ticket_invariants kw /\ Ticket_init kw = Ok kw) \/
  (~ ticket_invariants kw /\
   exists field, Ticket_init kw = Raise (ValidationError field)).
Proof.
  destruct (Ticket_init kw) as [t|e] eqn:E.
  - left. apply Ticket_init_inv in E as [-> Hi]. split; [exact Hi | reflexivity].
  - right. split.
    + intros Hi. rewrite (Ticket_init_valid Hi) in E. discriminate.
    + unfold Ticket_init in E.
      destruct (negb (mem (sentiment kw) sentiment_values));
        [injection E as <-; eauto|].
      destruct (negb (mem (urgency kw) urgency_values));
        [injection E as <-; eauto|].
      destruct (entities kw) as [es|]; [|injection E as <-; eauto].
      destruct (negb (forallb (fun e => is_ok (Entity_init e)) es));
        [injection E as <-; eauto|].
      destruct (negb (in_unit_interval (confidence_score kw)));
        [injection E as <-; eauto | discriminate].
Qed.

(** [Ticket(...)] accepts exactly the argument records that satisfy the
    invariants, returns them unchanged, and otherwise raises a
    [ValidationError]. *)
Theorem Ticket_init_sound_complete (kw : Ticket) :
  (ticket_invariants kw /\ Ticket_init kw = Ok kw) \/
  (~ ticket_invariants kw /\
   exists field, Ticket_init kw = Raise (ValidationError field)).
Proof. exact (Ticket_init_cases kw). Qed.

Lemma Ok_eq {A : Type} (a b : A) : Ok a = Ok b -> a = b.
Proof. intros H. now injection H. Qed.

Lemma max_from_spec {A : Type} (key : A -> Q) (xs : list A) (best : A) :
  In (max_from key best xs) (best :: xs) /\
  Forall (fun x => (key x <= key (max_from key best xs))%Q) (best :: xs).
Proof.
  revert best; induction xs as [|x xs IH]; intros best; simpl max_from.
  - split; [now left | constructor; [apply Qle_refl | constructor]].
  - destruct (Qcompare (key best) (key x)) eqn:E.
    + apply Qeq_alt in E. destruct (IH best) as [Hin Hall].
      split; [destruct Hin as [<- | Hin]; [now left | right; now right]|].
      inversion Hall as [|? ? Hb Hxs]; subst.
      constructor; [exact Hb|]. constructor; [|exact Hxs].
      rewrite <- E. exact Hb.
    + apply Qlt_alt in E. destruct (IH x) as [Hin Hall].
      split; [right; exact Hin|].
      inversion Hall as [|? ? Hx Hxs]; subst.
      constructor; [|exact Hall].
      eapply Qle_trans; [apply Qlt_le_weak, E | exact Hx].
    + apply Qgt_alt in E. destruct (IH best) as [Hin Hall].
      split; [destruct Hin as [<- | Hin]; [now left | right; now right]|].
      inversion Hall as [|? ? Hb Hxs]; subst.
      constructor; [exact Hb|]. constructor; [|exact Hxs].
      eapply Qle_trans; [apply Qlt_le_weak, E | exact Hb].
Qed.

Lemma assoc_get_set {V : Type} (d : list (string * V)) (k k' : string) (v : V) :
  assoc_get (assoc_set d k v) k' =
  if String.eqb k k' then Some v else assoc_get d k'.
Proof.
  induction d as [|[k0 v0] d IH]; simpl.
  - reflexivity.
  - destruct (String.eqb_spec k0 k) as [-> | Hk0]; simpl.
    + destruct (String.eqb k k'); reflexivity.
    + destruct (String.eqb_spec k0 k') as [-> | Hk0'].
      * destruct (String.eqb_spec k k'); [congruence | reflexivity].
      * exact IH.
Qed.

Lemma assoc_set_keys {V : Type} (d : list (string * V)) (k k' : string) (v : V) :
  In k' (map fst (assoc_set d k v)) <-> In k' (map fst d) \/ k' = k.
Proof.
  induction d as [|[k0 v0] d IH]; simpl.
  - split; [intros [<- | []]; now right | intros [[] | ->]; now left].
  - destruct (String.eqb_spec k0 k) as [-> | Hk0]; simpl.
    + split; [tauto | intros [H | ->]; [exact H | now left]].
    + rewrite IH. tauto.
Qed.

Lemma assoc_set_NoDup {V : Type} (d : list (string * V)) (k : string) (v : V) :
  NoDup (map fst d) -> NoDup (map fst (assoc_set d k v)).
Proof.
  induction d as [|[k0 v0] d IH]; simpl; intros H.
  - repeat constructor. intros [].
  - inversion H as [|? ? Hn Hd]; subst.
    destruct (String.eqb_spec k0 k) as [-> | Hk0]; simpl.
    + now constructor.
    + constructor; [|now apply IH].
      rewrite assoc_set_keys. intros [Hin | ->]; [now apply Hn | now apply Hk0].
Qed.

Lemma find_app_first {A : Type} (f : A -> bool) (l1 l2 : list A) :
  find f (l1 ++ l2)%list =
  match find f l1 with
  | Some a => Some a
  | None => find f l2
  end.
Proof.
  induction l1 as [|x l1 IH]; simpl; [reflexivity|].
  destruct (f x); [reflexivity | exact IH].
Qed.

(** A dict comprehension keeps, for each key, the value of the last
    element that carries it. *)
Lemma dict_comprehension_from {A V : Type} (key : A -> string) (value : A -> V)
      (xs : list A) (d : list (string * V)) (k : string) :
  assoc_get (fold_left (fun d x => assoc_set d (key x) (value x)) xs d) k =
  match find (fun x => String.eqb (key x) k) (rev xs) with
  | Some x => Some (value x)
  | None => assoc_get d k
  end.
Proof.
  revert d; induction xs as [|x xs IH]; intros d; simpl; [reflexivity|].
  rewrite IH, find_app_first.
  destruct (find (fun x0 => String.eqb (key x0) k) (rev xs)); [reflexivity|].
  simpl. rewrite assoc_get_set. now destruct (String.eqb (key x) k).
Qed.

Lemma dict_comprehension_NoDup {A V : Type} (key : A -> string) (value : A -> V)
      (xs : list A) (d : list (string * V)) :
  NoDup (map fst d) ->
  NoDup (map fst (fold_left (fun d x => assoc_set d (key x) (value x)) xs d)).
Proof.
  revert d; induction xs as [|x xs IH]; intros d H; simpl; [exact H|].
  apply IH. now apply assoc_set_NoDup.
Qed.

(** A result of [analyze_sentiment] reports an entry of the first list the
    pipeline answered: its label, mapped to positive, negative or neutral,
    and its score, which no other entry of that list exceeds.  The scores
    dict has one entry per label, holding the score of the last entry of
    the list with that label. *)
Theorem analyze_sentiment_picks_maximum
        (m : Models) (text : string) (sr : SentimentResult) :
  analyze_sentiment m text = Ok sr ->
  exists results rest best,
    sentiment_pipeline m text = Ok (results :: rest) /\
    In best results /\
    sr_sentiment sr = sentiment_map_get (ls_label best) /\
    sr_confidence sr = ls_score best /\
    Forall (fun r => (ls_score r <= sr_confidence sr)%Q) results /\
    In (sr_sentiment sr) ["positive"; "neutral"; "negative"] /\
    NoDup (map fst (sr_scores sr)) /\
    forall label,
      assoc_get (sr_scores sr) label =
      option_map ls_score
                 (find (fun r => String.eqb (ls_label r) label) (rev results)).
Proof.
  unfold analyze_sentiment.
  destruct (sentiment_pipeline m text) as [[|results rest]|]; simpl;
    try discriminate.
  destruct results as [|r0 rs]; [discriminate|].
  remember (r0 :: rs) as results eqn:Er.
  rewrite Er at 1. cbn [max_by bind].
  intros H. apply Ok_eq in H. subst sr.
  destruct (max_from_spec ls_score rs r0) as [Hin Hall].
  rewrite <- Er in Hin, Hall.
  exists results, rest, (max_from ls_score r0 rs).
  cbn [sr_sentiment sr_confidence sr_scores].
  split; [reflexivity|]. split; [exact Hin|]. split; [reflexivity|].
  split; [reflexivity|]. split; [exact Hall|].
  split; [apply sentiment_map_get_label|].
  unfold dict_comprehension. split.
  - apply dict_comprehension_NoDup. constructor.
  - intros label. rewrite dict_comprehension_from.
    now destruct (find (fun r => String.eqb (ls_label r) label) (rev results)).
Qed.

Example analyze_sentiment_repeated_label :
  analyze_sentiment models_repeated_label short_email =
    Ok (mkSentimentResult "positive" 0.6 [("POSITIVE", 0.4)]).
Proof. reflexivity. Qed.

Lemma analyze_sentiment_picks_maximum_witness :
  analyze_sentiment models_up short_email =
    Ok (mkSentimentResult "negative" 0.98
                          [("NEGATIVE", 0.98); ("POSITIVE", 0.02)]) /\
  exists results rest best,
    sentiment_pipeline models_up short_email = Ok (results :: rest) /\
    In best results /\ ls_score best = 0.98.
Proof.
  split; [reflexivity|].
  destruct (@analyze_sentiment_picks_maximum models_up short_email _ eq_refl)
    as [results [rest [best [Hp [Hin [_ [Hc _]]]]]]].
  exists results, rest, best. split; [exact Hp|]. split; [exact Hin|].
  symmetry. exact Hc.
Defined.

(** [analyze_sentiment] raises in three ways only: the pipeline's own
    exception passes through, an empty answer gives [IndexError], and an
    empty first list gives [ValueError]. *)
Theorem analyze_sentiment_errors (m : Models) (text : string) (e : exception) :
  analyze_sentiment m text = Raise e <->
  ( sentiment_pipeline m text = Raise e
    \/ (sentiment_pipeline m text = Ok [] /\ e = IndexError)
    \/ (exists rest, sentiment_pipeline m text = Ok ([] :: rest) /\
                     e = ValueError) ).
Proof.
  unfold analyze_sentiment.
  destruct (sentiment_pipeline m text) as [[|results rest]|e']; simpl.
  - split.
    + intros H. injection H as <-. right; left. auto.
    + intros [H | [[_ ->] | [rest [H _]]]]; [discriminate | reflexivity | discriminate].
  - destruct results as [|r0 rs]; simpl.
    + split.
      * intros H. injection H as <-. right; right. now exists rest.
      * intros [H | [[H _] | [rest' [_ ->]]]];
          [discriminate | discriminate | reflexivity].
    + split; [discriminate|].
      intros [H | [[H _] | [rest' [H _]]]]; discriminate.
  - split.
    + intros H. injection H as <-. now left.
    + intros [H | [[H _] | [rest [H _]]]]; [now injection H as -> | discriminate | discriminate].
Qed.

(** [extract_entities] fails only when the spaCy pipeline does; otherwise
    it answers one entity per span of the document, in the document's
    order, with the span's text, label and offsets and confidence 1.0. *)
Theorem extract_entities_spans (m : Models) (text : string) :
  extract_entities m text =
  match nlp m text with
  | Ok doc =>
      Ok (map (fun ent => mkEntity (span_text ent) (label_ ent)
                                   (start_char ent) (end_char ent) 1.0)
              (ents doc))
  | Raise e => Raise e
  end.
Proof.
  unfold extract_entities. destruct (nlp m text) as [doc|e]; simpl; [|reflexivity].
  induction (ents doc) as [|ent rest IH]; simpl; [reflexivity|].
  rewrite IH. reflexivity.
Qed.

(** When [list(set(xs))] enumerates the elements of [xs] once each, the
    product mentions have no duplicates and are exactly the texts of the
    entities labelled PRODUCT, ORG or PERSON and of the noun tokens that
    read widget, app, software or service in any case. *)
Theorem extract_product_mentions_members
        (m : Models) (text : string) (doc : Doc) :
  (forall xs, NoDup (list_of_set m xs) /\
              forall x, In x (list_of_set m xs) <-> In x xs) ->
  nlp m text = Ok doc ->
  exists products,
    extract_product_mentions m text = Ok products /\
    NoDup products /\
    forall x,
      In x products <->
      ( (exists ent, In ent (ents doc) /\
                     In (label_ ent) ["PRODUCT"; "ORG"; "PERSON"] /\
                     span_text ent = x)
        \/ (exists token, In token (tokens doc) /\
                          pos_ token = "NOUN" /\
                          In (lower (tok_text token))
                             ["widget"; "app"; "software"; "service"] /\
                          tok_text token = x) ).
Proof.
  intros Hset Hdoc. unfold extract_product_mentions. rewrite Hdoc. simpl bind.
  eexists. split; [reflexivity|]. split; [apply Hset|].
  intros x. destruct (Hset
    (map span_text
       (filter (fun ent => mem (label_ ent) ["PRODUCT"; "ORG"; "PERSON"])
               (ents doc)) ++
     map tok_text
       (filter (fun token => String.eqb (pos_ token) "NOUN" &&
                             mem (lower (tok_text token))
                                 ["widget"; "app"; "software"; "service"])
               (tokens doc)))%list) as [_ Hin].
  rewrite Hin, in_app_iff, !in_map_iff. split.
  - intros [[ent [Hx He]] | [token [Hx Ht]]].
    + apply filter_In in He as [He Hl]. apply mem_In in Hl.
      left. now exists ent.
    + apply filter_In in Ht as [Ht Hl]. apply andb_true_iff in Hl as [Hp Hw].
      apply String.eqb_eq in Hp. apply mem_In in Hw.
      right. now exists token.
  - intros [[ent [He [Hl Hx]]] | [token [Ht [Hp [Hw Hx]]]]].
    + left. exists ent. split; [exact Hx|]. apply filter_In.
      split; [exact He | now apply mem_In].
    + right. exists token. split; [exact Hx|]. apply filter_In.
      split; [exact Ht|]. apply andb_true_iff. split.
      * now apply String.eqb_eq.
      * now apply mem_In.
Qed.

Lemma extract_product_mentions_members_witness :
  extract_product_mentions models_up short_email = Ok ["Widget-X"; "Jane Doe"] /\
  exists products,
    extract_product_mentions models_up short_email = Ok products /\
    NoDup products.
Proof.
  split; [reflexivity|].
  destruct (@extract_product_mentions_members models_up short_email
              (doc_of short_email)) as [products [Hp [Hn _]]].
  - intros xs. split; [apply NoDup_nodup | intros x; apply nodup_In].
  - reflexivity.
  - exists products. split; [exact Hp | exact Hn].
Defined.

Lemma customer_id_char (c : ascii) :
  upper_char (if Ascii.eqb c " " then "_"%char else c) <> " "%char /\
  is_lower (upper_char (if Ascii.eqb c " " then "_"%char else c)) = false.
Proof.
  destruct c as [[] [] [] [] [] [] [] []]; vm_compute;
    (split; [discriminate | reflexivity]).
Qed.

Lemma normalised_text_chars (s : string) :
  Forall (fun c => c <> " "%char /\ is_lower c = false)
         (chars (upper (replace_char " " "_" s))).
Proof.
  induction s as [|c s IH]; simpl; constructor.
  - apply customer_id_char.
  - exact IH.
Qed.

Lemma demo_customer_id_eq (entities : list Entity) :
  demo_customer_id entities = fallback_customer_id entities.
Proof.
  induction entities as [|e es IH]; simpl; [reflexivity|]. now rewrite IH.
Qed.

(** The customer id of the fallback is "UNKNOWN" when no entity is
    labelled PERSON or ORG; otherwise it is "C_" followed by the text of
    the first such entity, spaces replaced by underscores, in upper case.
    [create_demo_ticket] computes the same id. *)
Theorem fallback_customer_id_first_match (entities : list Entity) :
  demo_customer_id entities = fallback_customer_id entities /\
  ( (Forall (fun e => ~ In (ent_label e) ["PERSON"; "ORG"]) entities /\
     fallback_customer_id entities = "UNKNOWN")
    \/ (exists before entity after,
           entities = (before ++ entity :: after)%list /\
           Forall (fun e => ~ In (ent_label e) ["PERSON"; "ORG"]) before /\
           In (ent_label entity) ["PERSON"; "ORG"] /\
           fallback_customer_id entities =
           "C_" ++ upper (replace_char " " "_" (ent_text entity))) ).
Proof.
  split.
  - apply demo_customer_id_eq.
  - induction entities as [|e es IH]; cbn [fallback_customer_id].
    + left. split; [constructor | reflexivity].
    + destruct (mem (ent_label e) ["PERSON"; "ORG"]) eqn:E.
      * right. exists [], e, es. apply mem_In in E.
        split; [reflexivity|]. split; [constructor|]. split; [exact E | reflexivity].
      * assert (Hn : ~ In (ent_label e) ["PERSON"; "ORG"]).
        { intros H. apply mem_In in H. rewrite H in E. discriminate. }
        destruct IH as [[Hall Hid] | [before [entity [after [-> [Hb [Hl Hid]]]]]]].
        -- left. split; [now constructor | exact Hid].
        -- right. exists (e :: before), entity, after.
           split; [reflexivity|]. split; [now constructor|]. now split.
Qed.

(** A customer id built by the fallback never contains a space or a
    lower-case ASCII letter. *)
Theorem fallback_customer_id_charset (entities : list Entity) :
  Forall (fun c => c <> " "%char /\ is_lower c = false)
         (chars (fallback_customer_id entities)).
Proof.
  induction entities as [|e es IH]; cbn [fallback_customer_id].
  - repeat constructor; discriminate.
  - destruct (mem (ent_label e) ["PERSON"; "ORG"]); [|exact IH].
    simpl. constructor; [split; [discriminate | reflexivity]|].
    constructor; [split; [discriminate | reflexivity]|].
    apply normalised_text_chars.
Qed.

End Collaborators.

(* ================================================================== *)
(** ** The callers: demo ticket, batch, HTTP handler, evaluation *)
(* ================================================================== *)

Section Callers.

Lemma process_email_ok_invariants
      (self : TriageAgent) (email_text : string) (t : Ticket) :
  process_email self email_text = Ok t -> ticket_invariants t.
Proof.
  intros H.
  apply process_email_inv in H as [es [ps [sr [_ [_ [_ [Hl | [_ Hf]]]]]]]].
  - apply llm_synthesis_inv in Hl as [data [_ [_ Hi]]]. exact Hi.
  - now apply fallback_ticket_inv in Hf.
Qed.

Lemma llm_synthesis_raises (self : TriageAgent) (email_text : string)
      (entities : list Entity) (product_mentions : list string)
      (sentiment_result : SentimentResult) (urgency_result : UrgencyResult)
      (e : exception) :
  llm_synthesis self email_text entities product_mentions
                sentiment_result urgency_result = Raise e ->
  agent_run self (mkPrompt email_text entities product_mentions
                           (sr_sentiment sentiment_result)
                           (sr_confidence sentiment_result)
                           (ur_urgency urgency_result)
                           (ur_confidence urgency_result)) = Raise e
  \/ exists field, e = ValidationError field.
Proof.
  unfold llm_synthesis.
  destruct (agent_run self _) as [data|e']; cbn [bind].
  - match goal with
    | |- Ticket_init ?kw = _ -> _ =>
        destruct (Ticket_init_cases kw) as [[_ ->] | [_ [field ->]]]
    end; [discriminate|].
    intros H. injection H as <-. right. now exists field.
  - intros H. injection H as <-. now left.
Qed.

Lemma process_email_ok_of_signals
      (self : TriageAgent) (email_text : string)
      (entities : list Entity) (product_mentions : list string)
      (sentiment_result : SentimentResult) :
  extract_entities (ml self) email_text = Ok entities ->
  extract_product_mentions (ml self) email_text = Ok product_mentions ->
  analyze_sentiment (ml self) email_text = Ok sentiment_result ->
  (0 <= sr_confidence sentiment_result /\ sr_confidence sentiment_result <= 1)%Q ->
  (forall prompt e, agent_run self prompt = Raise e -> is_exception e = true) ->
  exists t, process_email self email_text = Ok t.
Proof.
  intros He Hp Hs Hc Hllm. unfold process_email. rewrite He, Hp, Hs. cbn [bind].
  destruct (llm_synthesis self email_text entities product_mentions
              sentiment_result _) as [t|e] eqn:E; cbn [try_except];
    [now exists t|].
  assert (Hex : is_exception e = true).
  { apply llm_synthesis_raises in E as [E | [field ->]];
      [exact (Hllm _ _ E) | reflexivity]. }
  rewrite Hex. apply fallback_ticket_ok.
  - exact (extract_entities_valid _ _ He).
  - exact (analyze_sentiment_label _ _ Hs).
  - apply classify_urgency_label.
  - exact Hc.
  - apply classify_urgency_confidence_unit.
Qed.



Lemma process_single_cases (self_agent : TriageAgent) (email_text : string) :
  process_single self_agent email_text =
  match process_email self_agent email_text with
  | Ok t => Ok (Some t)
  | Raise e => if is_exception e then Ok None else Raise e
  end.
Proof.
  unfold process_single. now destruct (process_email self_agent email_text).
Qed.




(** No email is lost to a failure of the LLM that is an [Exception]: when
    the signal computations succeed on every email of the batch, with
    sentiment confidences in [0,1], and the LLM-backed agent raises
    nothing but [Exception]s, the batch returns one ticket per email, in
    the order of the emails. *)
Theorem process_email_batch_complete
        (self_agent : TriageAgent) (emails : list string) :
  Forall (fun email =>
            exists entities product_mentions sentiment_result,
              extract_entities (ml self_agent) email = Ok entities /\
              extract_product_mentions (ml self_agent) email = Ok product_mentions /\
              analyze_sentiment (ml self_agent) email = Ok sentiment_result /\
              (0 <= sr_confidence sentiment_result /\
               sr_confidence sentiment_result <= 1)%Q) emails ->
  (forall prompt e,
      agent_run self_agent prompt = Raise e -> is_exception e = true) ->
  exists tickets,
    process_email_batch self_agent emails = Ok tickets /\
    Forall2 (fun email t => process_email self_agent email = Ok t)
            emails tickets.
Proof.
  intros Hsig Hllm. unfold process_email_batch.
  induction Hsig as [|email emails [es [ps [sr [He [Hp [Hs Hc]]]]]] _ IH];
    cbn [map gather].
  - exists []. split; [reflexivity | constructor].
  - rewrite process_single_cases.
    destruct (process_email_ok_of_signals self_agent email He Hp Hs Hc Hllm)
      as [t Ht].
    rewrite Ht. destruct IH as [tickets [Hb Hall]].
    destruct (gather (map (process_single self_agent) emails)) as [outcomes|e];
      cbn [bind] in Hb; [|discriminate].
    apply Ok_eq in Hb. exists (t :: tickets). cbn [bind flat_map app].
    rewrite Hb. split; [reflexivity|]. constructor; [exact Ht | exact Hall].
Qed.

Lemma process_email_batch_complete_witness :
  (exists tickets,
      process_email_batch agent_llm_down [short_email; long_email] = Ok tickets /\
      List.length tickets = 2%nat) /\
  process_email_batch agent_llm_cancelled [short_email; long_email] =
    Raise (BaseExceptionOnly "CancelledError") /\
  exists tickets,
    process_email_batch agent_llm_down [short_email; long_email] = Ok tickets /\
    Forall2 (fun email t => process_email agent_llm_down email = Ok t)
            [short_email; long_email] tickets.
Proof.
  split; [eexists; split; reflexivity|]. split; [reflexivity|].
  apply process_email_batch_complete.
  - repeat constructor;
      (eexists; eexists; eexists;
       split; [reflexivity|]; split; [reflexivity|]; split; [reflexivity|];
       split; unfold Qle; simpl; lia).
  - intros prompt e H. injection H as <-. reflexivity.
Defined.

(** The handler of [POST /triage] answers with a ticket that satisfies
    the invariants whenever the signal computations succeed with a
    sentiment confidence in [0,1] and the LLM-backed agent raises nothing
    but [Exception]s: a failure of the LLM of that kind is never a 500. *)
Theorem triage_email_survives_llm_failure
        (triage_agent : TriageAgent) (email_text : string)
        (entities : list Entity) (product_mentions : list string)
        (sentiment_result : SentimentResult) :
  extract_entities (ml triage_agent) email_text = Ok entities ->
  extract_product_mentions (ml triage_agent) email_text = Ok product_mentions ->
  analyze_sentiment (ml triage_agent) email_text = Ok sentiment_result ->
  (0 <= sr_confidence sentiment_result /\ sr_confidence sentiment_result <= 1)%Q ->
  (forall prompt e,
      agent_run triage_agent prompt = Raise e -> is_exception e = true) ->
  exists t,
    triage_email triage_agent email_text = Ok (Returned t) /\
    ticket_invariants t.
Proof.
  intros He Hp Hs Hc Hllm.
  destruct (process_email_ok_of_signals triage_agent email_text He Hp Hs Hc Hllm)
    as [t Ht].
  exists t. unfold triage_email. rewrite Ht.
  split; [reflexivity | exact (process_email_ok_invariants _ _ Ht)].
Qed.

Lemma triage_email_survives_llm_failure_witness :
  agent_run agent_llm_down
    (mkPrompt short_email [] [] "negative" 0.98 "high" 0.8)
    = Raise (ExternalError "connection timed out") /\
  triage_email agent_llm_cancelled short_email =
    Raise (BaseExceptionOnly "CancelledError") /\
  exists t, triage_email agent_llm_down short_email = Ok (Returned t) /\
            ticket_invariants t.
Proof.
  split; [reflexivity|]. split; [reflexivity|].
  apply (@triage_email_survives_llm_failure agent_llm_down short_email
           _ _ _ eq_refl eq_refl eq_refl).
  - split; unfold Qle; simpl; lia.
  - intros prompt e H. injection H as <-. reflexivity.
Defined.

(** When the handler answers with an [HTTPException], its status is 500
    and the exception it reports is an [Exception] raised by entity
    extraction, by product-mention extraction, by sentiment analysis, or,
    these three having succeeded and the LLM step having raised an
    [Exception], a [ValidationError] raised by the construction of the
    fallback ticket. *)
Theorem triage_email_500 (triage_agent : TriageAgent) (email_text : string)
        (status_code : Z) (cause : exception) :
  triage_email triage_agent email_text = Ok (HTTPException status_code cause) ->
  status_code = 500%Z /\
  is_exception cause = true /\
  ( extract_entities (ml triage_agent) email_text = Raise cause
    \/ (exists entities,
           extract_entities (ml triage_agent) email_text = Ok entities /\
           extract_product_mentions (ml triage_agent) email_text = Raise cause)
    \/ (exists entities product_mentions,
           extract_entities (ml triage_agent) email_text = Ok entities /\
           extract_product_mentions (ml triage_agent) email_text
             = Ok product_mentions /\
           analyze_sentiment (ml triage_agent) email_text = Raise cause)
    \/ (exists entities product_mentions sentiment_result e field,
           extract_entities (ml triage_agent) email_text = Ok entities /\
           extract_product_mentions (ml triage_agent) email_text
             = Ok product_mentions /\
           analyze_sentiment (ml triage_agent) email_text = Ok sentiment_result /\
           llm_synthesis triage_agent email_text entities product_mentions
             sentiment_result
             (classify_urgency email_text (sr_sentiment sentiment_result))
             = Raise e /\
           is_exception e = true /\
           _create_fallback_ticket email_text entities product_mentions
             sentiment_result
             (classify_urgency email_text (sr_sentiment sentiment_result))
             = Raise cause /\
           cause = ValidationError field) ).
Proof.
  unfold triage_email.
  destruct (process_email triage_agent email_text) as [t|c] eqn:Ep;
    cbn [bind try_except]; [discriminate|].
  destruct (is_exception c) eqn:Ec; [|discriminate].
  intros H. injection H as <- <-.
  split; [reflexivity|]. split; [exact Ec|].
  unfold process_email in Ep.
  destruct (extract_entities (ml triage_agent) email_text) as [es|e1];
    cbn [bind] in Ep.
  2:{ injection Ep as <-. now left. }
  destruct (extract_product_mentions (ml triage_agent) email_text) as [ps|e2];
    cbn [bind] in Ep.
  2:{ injection Ep as <-. right; left. now exists es. }
  destruct (analyze_sentiment (ml triage_agent) email_text) as [sr|e3];
    cbn [bind] in Ep.
  2:{ injection Ep as <-. right; right; left. now exists es, ps. }
  destruct (llm_synthesis triage_agent email_text es ps sr _) as [t|e4] eqn:El;
    cbn [try_except] in Ep; [discriminate|].
  destruct (is_exception e4) eqn:E4.
  - right; right; right.
    assert (Hf : exists field, c = ValidationError field).
    { unfold _create_fallback_ticket in Ep.
      match type of Ep with
      | Ticket_init ?kw = _ =>
          destruct (Ticket_init_cases kw) as [[_ Hk] | [_ [field Hk]]];
            rewrite Hk in Ep
      end; [discriminate|].
      injection Ep as <-. now exists field. }
    destruct Hf as [field Hf].
    exists es, ps, sr, e4, field.
    split; [reflexivity|]. split; [reflexivity|]. split; [reflexivity|].
    split; [exact El|]. split; [exact E4|]. split; [exact Ep | exact Hf].
  - injection Ep as <-. rewrite E4 in Ec. discriminate.
Qed.

Lemma triage_email_500_witness :
  triage_email agent_sentiment_down short_email =
    Ok (HTTPException 500 (ExternalError "sentiment model unavailable")) /\
  analyze_sentiment (ml agent_sentiment_down) short_email =
    Raise (ExternalError "sentiment model unavailable").
Proof.
  split; [reflexivity|].
  destruct (@triage_email_500 agent_sentiment_down short_email 500
              (ExternalError "sentiment model unavailable") eq_refl)
    as [_ [_ [H | [[es [_ H]] | [[es [ps [_ [_ H]]]] | H]]]]].
  - discriminate.
  - discriminate.
  - exact H.
  - destruct H as [es [ps [sr [e [field [_ [_ [H _]]]]]]]]. discriminate.
Defined.

(** [evaluate_model] answers one prediction, one true label and one
    detailed result per example, in the order of the test data; every
    prediction is positive, neutral or negative; an example is marked
    correct exactly when prediction and true label are equal, so never
    when its true label is outside these three values; the number of
    correct predictions lies between 0 and the number of examples. *)
Theorem evaluate_model_shape
        (m : Models) (test_data : list (string * string))
        (predictions true_labels : list string)
        (detailed_results : list DetailedResult) :
  evaluate_model m test_data = Ok (predictions, true_labels, detailed_results) ->
  true_labels = map snd test_data /\
  List.length predictions = List.length test_data /\
  Forall (fun p => In p ["positive"; "neutral"; "negative"]) predictions /\
  map dr_text detailed_results = map fst test_data /\
  map dr_true_label detailed_results = true_labels /\
  map dr_predicted_label detailed_results = predictions /\
  Forall (fun d => dr_correct d = true <->
                   dr_predicted_label d = dr_true_label d) detailed_results /\
  Forall (fun d => dr_correct d = true ->
                   In (dr_true_label d) ["positive"; "neutral"; "negative"])
         detailed_results /\
  (0 <= correct_predictions detailed_results <= Z.of_nat (List.length test_data))%Z.
Proof.
  revert predictions true_labels detailed_results.
  induction test_data as [|[text true_label] rest IH];
    intros predictions true_labels detailed_results; simpl.
  - intros H. injection H as <- <- <-. unfold correct_predictions. simpl.
    repeat split; try constructor; try reflexivity; lia.
  - destruct (analyze_sentiment m text) as [r|] eqn:Er; simpl; [|discriminate].
    destruct (evaluate_model m rest) as [[[ps ts] ds]|]; simpl; [|discriminate].
    intros H. injection H as <- <- <-.
    destruct (IH ps ts ds eq_refl)
      as [Ht [Hl [Hp [Hx [Htl [Hpl [Hc [Hk Hn]]]]]]]].
    pose proof (analyze_sentiment_label _ _ Er) as Hlab.
    unfold correct_predictions in *. rewrite sum_ones in *.
    simpl. split; [now rewrite Ht|]. split; [now rewrite Hl|].
    split; [now constructor|]. split; [now rewrite Hx|].
    split; [now rewrite Htl|]. split; [now rewrite Hpl|].
    split; [constructor; [simpl; apply String.eqb_eq | exact Hc]|].
    split.
    + constructor; [|exact Hk]. simpl. intros E.
      apply String.eqb_eq in E. now rewrite <- E.
    + destruct (String.eqb (sr_sentiment r) true_label); simpl List.length; lia.
Qed.

Lemma evaluate_model_shape_witness :
  exists predictions true_labels detailed_results,
    evaluate_model models_up [(short_email, "negative"); (long_email, "mixed")]
    = Ok (predictions, true_labels, detailed_results) /\
    predictions = ["negative"; "negative"] /\
    correct_predictions detailed_results = 1%Z /\
    true_labels = ["negative"; "mixed"].
Proof.
  eexists. eexists. eexists. split; [reflexivity|].
  split; [reflexivity|]. split; [reflexivity|].
  destruct (@evaluate_model_shape models_up
              [(short_email, "negative"); (long_email, "mixed")] _ _ _ eq_refl)
    as [Ht _].
  exact Ht.
Defined.

End Callers.

(* ================================================================== *)
(** ** BatchProcessor: loading emails and the summary *)
(* ================================================================== *)

Section BatchFiles.

Lemma lstrip_head (s : string) :
  match lstrip s with
  | EmptyString => True
  | String c _ => is_space c = false
  end.
Proof.
  induction s as [|c s IH]; simpl; [exact I|].
  destruct (is_space c) eqn:E; [exact IH | exact E].
Qed.

Lemma lstrip_suffix (s : string) : exists pre, s = (pre ++ lstrip s)%string.
Proof.
  induction s as [|c s [pre IH]]; simpl.
  - now exists "".
  - destruct (is_space c).
    + exists (String c pre). simpl. now rewrite <- IH.
    + now exists "".
Qed.

Lemma rstrip_prefix (s : string) : exists post, s = (rstrip s ++ post)%string.
Proof.
  induction s as [|c s [post IH]]; simpl.
  - now exists "".
  - destruct (rstrip s) as [|a r] eqn:E.
    + destruct (is_space c).
      * now exists (String c s).
      * exists s. reflexivity.
    + exists post. simpl in *. now rewrite <- IH.
Qed.

Lemma rstrip_keeps_head (c : ascii) (s : string) :
  is_space c = false -> exists r, rstrip (String c s) = String c r.
Proof.
  intros H. simpl. destruct (rstrip s) as [|a r].
  - rewrite H. now exists "".
  - now exists (String a r).
Qed.

Lemma rstrip_last (s : string) (d : ascii) :
  rstrip s <> "" -> is_space (last (chars (rstrip s)) d) = false.
Proof.
  induction s as [|c s IH]; simpl; [congruence|].
  destruct (rstrip s) as [|a r] eqn:E.
  - destruct (is_space c) eqn:Ec; [congruence|]. intros _. exact Ec.
  - intros _. change (chars (String c (String a r)))
      with (c :: chars (String a r)).
    simpl chars in *. simpl last. apply IH. discriminate.
Qed.

(** [strip] leaves no white space at either end. *)
Lemma strip_stripped (s : string) : stripped (strip s).
Proof.
  unfold stripped, strip. pose proof (lstrip_head s) as Hh.
  destruct (lstrip s) as [|c r] eqn:E; [exact I|].
  destruct (@rstrip_keeps_head c r Hh) as [r' Hr].
  pose proof (@rstrip_last (String c r) c) as Hl.
  rewrite Hr in *. simpl chars in *. split; [exact Hh|].
  apply Hl. discriminate.
Qed.

Lemma contains_strip (p s : string) :
  contains p (strip s) = true -> contains p s = true.
Proof.
  intros H. unfold strip in H.
  destruct (lstrip_suffix s) as [pre Hpre].
  destruct (rstrip_prefix (lstrip s)) as [post Hpost].
  rewrite Hpre, Hpost. now apply contains_embedded.
Qed.

Lemma split_go_nonempty (sep : string) (skip : nat) (s : string) :
  split_go sep skip s <> [].
Proof.
  revert skip; induction s as [|c s IH]; intros skip; simpl; [discriminate|].
  destruct skip; [|apply IH].
  destruct (startswith sep (String c s)); [discriminate|].
  destruct (split_go sep 0 s); discriminate.
Qed.

(** Without an occurrence of the separator, [split] answers the text as
    its only piece. *)
Lemma split_absent (sep s : string) :
  contains sep s = false -> split sep s = [s].
Proof.
  unfold split. induction s as [|c s IH]; rewrite contains_unfold;
    intros H; apply orb_false_iff in H as [Hs Hc]; simpl.
  - reflexivity.
  - simpl in Hs. rewrite Hs. now rewrite (IH Hc).
Qed.

(** With an occurrence of a non-empty separator, [split] answers at
    least two pieces. *)
Lemma split_present (sep s : string) :
  startswith sep "" = false -> contains sep s = true ->
  (2 <= List.length (split sep s))%nat.
Proof.
  intros Hne. unfold split. induction s as [|c s IH]; rewrite contains_unfold;
    intros H.
  - rewrite Hne in H. discriminate.
  - simpl split_go. destruct (startswith sep (String c s)) eqn:Hs.
    + pose proof (@split_go_nonempty sep (String.length sep - 1) s) as Hn.
      destruct (split_go sep (String.length sep - 1) s); [congruence|].
      simpl. lia.
    + simpl in H. specialize (IH H).
      destruct (split_go sep 0 s); simpl in *; lia.
Qed.

(** The pieces of a text split at line feeds contain no line feed. *)
Lemma split_LF_lines (s : string) :
  Forall (fun piece => contains LF piece = false) (split LF s).
Proof.
  unfold split, LF. induction s as [|c s IH].
  - repeat constructor.
  - cbn [split_go startswith String.length Nat.sub]. rewrite andb_true_r.
    destruct (Ascii.eqb "010" c) eqn:E.
    + constructor; [reflexivity | exact IH].
    + pose proof (@split_go_nonempty (String "010" "") 0 s) as Hn.
      destruct (split_go (String "010" "") 0 s) as [|piece pieces]; [congruence|].
      inversion IH as [|? ? Hp Hps]; subst.
      constructor; [|exact Hps].
      rewrite contains_unfold. cbn [startswith]. rewrite E. cbn [andb orb].
      exact Hp.
Qed.

(** [load_emails_from_file] splits at blank lines exactly when the file
    contains one, that is two line feeds in a row, and at line feeds
    otherwise; the pieces are stripped and the blank ones dropped. *)
Theorem load_emails_modes (content : string) :
  load_emails_from_file (Some content) =
  map strip
      (filter (fun email => negb (String.eqb (strip email) ""))
              (split (if contains LFLF content then LFLF else LF) content)).
Proof.
  unfold load_emails_from_file.
  destruct (contains LFLF content) eqn:E.
  - pose proof (@split_present LFLF content eq_refl E) as H.
    destruct (Nat.eqb_spec (List.length (split LFLF content)) 1); [lia|].
    reflexivity.
  - rewrite (@split_absent LFLF content E). reflexivity.
Qed.

(** Every email [load_emails_from_file] returns is non-empty and has no
    white space at either end; a missing file gives no email. *)
Theorem load_emails_clean (file : option string) :
  Forall (fun email => email <> "" /\ stripped email)
         (load_emails_from_file file) /\
  load_emails_from_file None = [].
Proof.
  split; [|reflexivity].
  destruct file as [content|]; [|constructor].
  unfold load_emails_from_file.
  apply Forall_forall. intros email Hin.
  apply in_map_iff in Hin as [piece [<- Hin]].
  apply filter_In in Hin as [_ Hne].
  split; [|apply strip_stripped].
  intros E. rewrite E in Hne. discriminate.
Qed.

(** When the file contains no blank line, every email returned is a
    single line: it contains no line feed. *)
Theorem load_emails_single_lines (content : string) :
  contains LFLF content = false ->
  Forall (fun email => contains LF email = false)
         (load_emails_from_file (Some content)).
Proof.
  intros H.
  assert (Hm : load_emails_from_file (Some content) =
               map strip
                   (filter (fun email => negb (String.eqb (strip email) ""))
                           (split LF content))).
  { unfold load_emails_from_file. rewrite (@split_absent LFLF content H). reflexivity. }
  rewrite Hm. apply Forall_forall. intros email Hin.
  apply in_map_iff in Hin as [piece [<- Hin]].
  apply filter_In in Hin as [Hin _].
  pose proof (split_LF_lines content) as Hl.
  rewrite Forall_forall in Hl. specialize (Hl piece Hin).
  destruct (contains LF (strip piece)) eqn:E; [|reflexivity].
  apply contains_strip in E. congruence.
Qed.

Lemma load_emails_single_lines_witness :
  load_emails_from_file (Some (" first email " ++ LF ++ LF ++ "second email" ++ LF))
    = ["first email"; "second email"] /\
  load_emails_from_file (Some ("one" ++ LF ++ "  " ++ LF ++ "two"))
    = ["one"; "two"] /\
  Forall (fun email => contains LF email = false)
         (load_emails_from_file (Some ("one" ++ LF ++ "  " ++ LF ++ "two"))).
Proof.
  split; [reflexivity|]. split; [reflexivity|].
  apply load_emails_single_lines. reflexivity.
Defined.

Lemma Some_eq {A : Type} (a b : A) : Some a = Some b -> a = b.
Proof. intros H. now injection H. Qed.

Lemma dict_get_set (d : dict) (k k' : string) (v default : Z) :
  dict_get (dict_set d k v) k' default =
  if String.eqb k k' then v else dict_get d k' default.
Proof.
  induction d as [|[k0 v0] d IH]; simpl.
  - reflexivity.
  - destruct (String.eqb_spec k0 k) as [-> | Hk0]; simpl.
    + destruct (String.eqb k k'); reflexivity.
    + destruct (String.eqb_spec k0 k') as [-> | Hk0'].
      * destruct (String.eqb_spec k k'); [congruence | reflexivity].
      * exact IH.
Qed.

Lemma count_tickets_get (tickets : list Ticket) (u s : dict) (k : string) :
  dict_get (fst (count_tickets tickets u s)) k 0 =
    (dict_get u k 0 +
     Z.of_nat (List.length (filter (fun t => String.eqb (urgency t) k) tickets)))%Z /\
  dict_get (snd (count_tickets tickets u s)) k 0 =
    (dict_get s k 0 +
     Z.of_nat (List.length (filter (fun t => String.eqb (sentiment t) k) tickets)))%Z.
Proof.
  revert u s; induction tickets as [|t tickets IH]; intros u s; simpl.
  - split; lia.
  - destruct (IH (dict_set u (urgency t) (dict_get u (urgency t) 0 + 1))
                 (dict_set s (sentiment t) (dict_get s (sentiment t) 0 + 1)))
      as [Hu Hs].
    rewrite Hu, Hs, !dict_get_set. split.
    + destruct (String.eqb_spec (urgency t) k) as [-> | _]; simpl List.length; lia.
    + destruct (String.eqb_spec (sentiment t) k) as [-> | _]; simpl List.length; lia.
Qed.

Lemma sum_confidence_bounds (tickets : list Ticket) (acc : Q) :
  Forall ticket_invariants tickets ->
  (acc <= fold_left Qplus (map confidence_score tickets) acc /\
   fold_left Qplus (map confidence_score tickets) acc
   <= acc + float (Z.of_nat (List.length tickets)))%Q.
Proof.
  intros H. revert acc. induction H as [|t tickets Ht _ IH]; intros acc.
  - simpl. unfold float. change (inject_Z 0) with 0%Q. split; lra.
  - destruct Ht as [_ [_ [[Hc0 Hc1] _]]].
    simpl fold_left. destruct (IH (acc + confidence_score t)%Q) as [Hl Hu].
    simpl List.length. rewrite Nat2Z.inj_succ. unfold Z.succ, float in *.
    rewrite inject_Z_plus. change (inject_Z 1) with 1%Q. split; lra.
Qed.

(** The summary counts every ticket once under its urgency and once
    under its sentiment: for each label, the entry of the distribution
    (0 when the label is absent) is the number of tickets carrying it;
    the table shows the first ten tickets and announces the others. *)
Theorem print_summary_counts (tickets : list Ticket) (sm : Summary) :
  print_summary tickets = Some sm ->
  tickets <> [] /\
  total_tickets sm = List.length tickets /\
  (forall label,
      dict_get (urgency_counts sm) label 0 =
      Z.of_nat (List.length
                  (filter (fun t => String.eqb (urgency t) label) tickets))) /\
  (forall label,
      dict_get (sentiment_counts sm) label 0 =
      Z.of_nat (List.length
                  (filter (fun t => String.eqb (sentiment t) label) tickets))) /\
  table_rows sm = firstn 10 tickets /\
  (List.length (table_rows sm) <= 10)%nat /\
  (List.length (table_rows sm)
   + match more_tickets sm with Some n => n | None => 0 end
   = List.length tickets)%nat.
Proof.
  unfold print_summary. destruct tickets as [|t0 ts]; [discriminate|].
  remember (t0 :: ts) as tickets eqn:Et.
  pose proof (fun k => count_tickets_get tickets [] [] k) as Hc.
  destruct (count_tickets tickets [] []) as [u s] eqn:E.
  intros H. apply Some_eq in H. subst sm.
  cbn [total_tickets urgency_counts sentiment_counts table_rows more_tickets].
  split; [rewrite Et; discriminate|]. split; [reflexivity|].
  split; [intros k; destruct (Hc k) as [Hu _]; simpl in Hu; exact Hu|].
  split; [intros k; destruct (Hc k) as [_ Hs]; simpl in Hs; exact Hs|].
  split; [reflexivity|].
  split; [rewrite length_firstn; lia|].
  rewrite length_firstn.
  destruct (Nat.ltb_spec 10 (List.length tickets)); lia.
Qed.

Lemma print_summary_counts_witness :
  exists sm,
    print_summary [llm_ticket; fused_llm_ticket] = Some sm /\
    urgency_counts sm = [("high", 2%Z)] /\
    dict_get (urgency_counts sm) "low" 0 = 0%Z.
Proof.
  eexists. split; [reflexivity|]. split; [reflexivity|].
  destruct (@print_summary_counts [llm_ticket; fused_llm_ticket] _ eq_refl)
    as [_ [_ [Hu _]]].
  exact (Hu "low").
Defined.

(** The average confidence of the summary is computed on a non-empty
    list only, and for tickets that satisfy the invariants it lies in
    [0,1]. *)
Theorem print_summary_average (tickets : list Ticket) (sm : Summary) :
  print_summary tickets = Some sm ->
  Forall ticket_invariants tickets ->
  (0 < List.length tickets)%nat /\
  (0 <= avg_confidence sm)%Q /\ (avg_confidence sm <= 1)%Q.
Proof.
  unfold print_summary. destruct tickets as [|t0 ts]; [discriminate|].
  remember (t0 :: ts) as tickets eqn:Et.
  destruct (count_tickets tickets [] []) as [u s].
  intros H Hv. apply Some_eq in H. subst sm. cbn [avg_confidence].
  destruct (@sum_confidence_bounds tickets 0 Hv) as [Hl Hu].
  fold (sum_confidence tickets) in Hl, Hu.
  assert (Hp : (0 < List.length tickets)%nat) by (rewrite Et; simpl; lia).
  assert (Hn : (0 < float (Z.of_nat (List.length tickets)))%Q).
  { unfold float. change 0%Q with (inject_Z 0). rewrite <- Zlt_Qlt. lia. }
  split; [exact Hp|]. split.
  - apply Qle_shift_div_l; [exact Hn | lra].
  - apply Qle_shift_div_r; [exact Hn | lra].
Qed.

Lemma print_summary_average_witness :
  exists sm,
    print_summary [fused_llm_ticket] = Some sm /\
    (avg_confidence sm == 0.89)%Q /\
    (avg_confidence sm <= 1)%Q.
Proof.
  eexists. split; [reflexivity|]. split; [reflexivity|].
  destruct (@print_summary_average [fused_llm_ticket] _ eq_refl) as [_ [_ H]].
  - constructor; [|constructor].
    unfold ticket_invariants. simpl.
    split; [auto|]. split; [auto|].
    split; [split; unfold Qle; simpl; lia|].
    eexists. split; [reflexivity|].
    constructor; [|constructor]. unfold entity_invariants. simpl.
    split; unfold Qle; simpl; lia.
  - exact H.
Defined.

End BatchFiles.

(* ================================================================== *)
(** ** The summary of a fallback ticket *)
(* ================================================================== *)

Section Summary.

Lemma str_length_app (a b : string) :
  String.length (a ++ b) = (String.length a + String.length b)%nat.
Proof. induction a as [|c a IH]; simpl; [reflexivity | now rewrite IH]. Qed.

Lemma slice_to_length (n : nat) (s : string) :
  String.length (slice_to n s) = Nat.min n (String.length s).
Proof.
  revert s; induction n as [|n IH]; intros [|c s]; simpl; try reflexivity.
  now rewrite IH.
Qed.

Lemma slice_to_prefix (n : nat) (s : string) : startswith (slice_to n s) s = true.
Proof.
  revert s; induction n as [|n IH]; intros [|c s]; simpl; try reflexivity.
  now rewrite Ascii.eqb_refl, IH.
Qed.

(** The summary of a fallback ticket is never longer than 103 characters,
    is never longer than the email text by more than its ellipsis, and
    begins with the first 100 characters of the text, or with all of it
    when the text is shorter. *)
Theorem fallback_summary_bounded
        (email_text : string) (entities : list Entity)
        (product_mentions : list string) (sentiment_result : SentimentResult)
        (urgency_result : UrgencyResult) (t : Ticket) :
  _create_fallback_ticket email_text entities product_mentions
                          sentiment_result urgency_result = Ok t ->
  (String.length (summary t) <= 103)%nat /\
  (String.length (summary t) <= String.length email_text + 3)%nat /\
  startswith (slice_to 100 email_text) (summary t) = true.
Proof.
  intros H. apply fallback_ticket_inv in H as [_ [_ [_ [_ [_ [-> _]]]]]].
  unfold len. destruct (Nat.ltb_spec 100 (String.length email_text)) as [Hl | Hl].
  - rewrite str_length_app, slice_to_length. simpl String.length.
    split; [lia|]. split; [lia|].
    apply startswith_iff. now exists "...".
  - split; [lia|]. split; [lia|]. apply slice_to_prefix.
Qed.

Lemma fallback_summary_bounded_witness :
  exists t,
    _create_fallback_ticket long_email [] [] neutral_result low_result = Ok t /\
    (String.length long_email = 110)%nat /\
    (String.length (summary t) <= 103)%nat.
Proof.
  eexists. split; [reflexivity|]. split; [reflexivity|].
  destruct (@fallback_summary_bounded long_email [] [] neutral_result low_result
              _ eq_refl) as [H _].
  exact H.
Defined.

End Summary.
